(** * SSMP: a length-prefixed key-value protocol (ssmp_server.py)

    A shallow embedding of the server side of SSMP: the frame codec
    ([pack_message], [read_fully]), the in-memory [KeyValueStore], the
    command dispatch of [handle_client] and one turn of its read / dispatch /
    respond loop, followed by the properties the specification states
    about them.

    Conventions of the embedding.
    - A decoded payload is a [json] value, the image of [json.loads]:
      [None] is [JNull], [True]/[False] are [JBool], an [int] is [JInt], a
      [float] is [JFloat], a [str] is [JStr], a [list] is [JList] and a
      [dict] is [JObject].
    - A raised exception is a [Raise] result; nothing in [handle_client]
      catches [AttributeError], [TypeError] or [struct.error], so such a
      result leaves the loop and closes the connection.
    - [recv] and [sendall] do not fail: a connection that is reset is
      not part of the model.
    - [DATA_STORE] is threaded explicitly; the lock of [KeyValueStore]
      makes each method atomic, so a method is a function on the mapping.
    - The functions of the Python library that the server calls and that
      carry tables of their own ([str.upper], [json.loads] after
      [bytes.decode], [json.dumps] before [str.encode]) are variables of
      the sections below. *)

From Stdlib Require Import ZArith List String Ascii Bool Lia.
From Stdlib Require Import Strings.Byte.
From Stdlib Require Import Floats.SpecFloat.
Import ListNotations.

Set Warnings "-register-all".

Local Open Scope string_scope.
Local Open Scope list_scope.
Local Open Scope Z_scope.

(** ** Values and exceptions *)

Inductive json : Type :=
| JNull
| JBool (b : bool)
| JInt (n : Z)
| JFloat (f : spec_float)
| JStr (s : string)
| JList (l : list json)
| JObject (o : list (string * json)).

Inductive exn : Type :=
| AttributeError
| TypeError
| IndexError
| StructError.

Inductive result (A : Type) : Type :=
| Ok (a : A)
| Raise (e : exn).

Arguments Ok {A} a.
Arguments Raise {A} e.

Definition is_str (v : json) : bool :=
  match v with JStr _ => true | _ => false end.

(** [value is not None] *)
Definition is_not_None (v : json) : bool :=
  match v with JNull => false | _ => true end.

(** ** Keys of a Python [dict]

    A [list] or a [dict] is not hashable.  Equality of keys is Python's
    [==]: [True == 1 == 1.0], a NaN is equal to nothing (the keys of two
    requests are never the same object), a [str] is equal to the same
    [str] only. *)

Definition hashable (v : json) : bool :=
  match v with
  | JList _ | JObject _ => false
  | _ => true
  end.

Inductive number : Type :=
| NInt (n : Z)
| NFloat (f : spec_float).

Definition as_number (v : json) : option number :=
  match v with
  | JBool b => Some (NInt (if b then 1 else 0))
  | JInt n => Some (NInt n)
  | JFloat f => Some (NFloat f)
  | _ => None
  end.

(** Exact comparison of a float with an integer. *)
Definition float_eq_int (f : spec_float) (n : Z) : bool :=
  match f with
  | S754_zero _ => n =? 0
  | S754_finite s m e =>
      let sign (x : Z) := if s then - x else x in
      if 0 <=? e then n =? sign (Z.pos m * 2 ^ e)
      else (Z.pos m mod 2 ^ (- e) =? 0) && (n =? sign (Z.pos m / 2 ^ (- e)))
  | _ => false
  end.

Definition number_eqb (x y : number) : bool :=
  match x, y with
  | NInt a, NInt b => a =? b
  | NInt a, NFloat f => float_eq_int f a
  | NFloat f, NInt b => float_eq_int f b
  | NFloat f, NFloat g => SFeqb f g
  end.

Definition py_eq (a b : json) : bool :=
  match a, b with
  | JNull, JNull => true
  | JStr s, JStr t => String.eqb s t
  | _, _ =>
      match as_number a, as_number b with
      | Some x, Some y => number_eqb x y
      | _, _ => false
      end
  end.

(** ** The mapping [self._data]

    An association list in insertion order; a key occurs once
    ([dict_wf]).  The operations take a hashable key: the methods of
    [KeyValueStore] below raise [TypeError] before they are reached
    otherwise. *)

Definition dict : Type := list (json * json).

(** [key in d] *)
Fixpoint dict_contains (key : json) (d : dict) : bool :=
  match d with
  | [] => false
  | (k, _) :: t => py_eq k key || dict_contains key t
  end.

(** [d.get(key)]: the value, [None] when the key is absent. *)
Fixpoint dict_get (key : json) (d : dict) : json :=
  match d with
  | [] => JNull
  | (k, v) :: t => if py_eq k key then v else dict_get key t
  end.

(** [d[key] = value]: an equal key keeps its place and takes the value. *)
Fixpoint dict_setitem (key value : json) (d : dict) : dict :=
  match d with
  | [] => [(key, value)]
  | (k, v) :: t =>
      if py_eq k key then (k, value) :: t
      else (k, v) :: dict_setitem key value t
  end.

(** [del d[key]] *)
Fixpoint dict_delitem (key : json) (d : dict) : dict :=
  match d with
  | [] => []
  | (k, v) :: t =>
      if py_eq k key then t else (k, v) :: dict_delitem key t
  end.

Fixpoint dict_wf (d : dict) : bool :=
  match d with
  | [] => true
  | (k, _) :: t => negb (dict_contains k t) && dict_wf t
  end.

(** Every key and every value of the mapping is a [str]. *)
Definition all_strings (d : dict) : bool :=
  forallb (fun kv => is_str (fst kv) && is_str (snd kv)) d.

(** ** class KeyValueStore

    Each method returns its result and the mapping it leaves. *)

Module KeyValueStore.

Definition set (key value : json) (d : dict) : result unit * dict :=
  if hashable key then (Ok tt, dict_setitem key value d)
  else (Raise TypeError, d).

Definition get (key : json) (d : dict) : result json * dict :=
  if hashable key then (Ok (dict_get key d), d)
  else (Raise TypeError, d).

Definition delete (key : json) (d : dict) : result Z * dict :=
  if hashable key then
    if dict_contains key d then (Ok 1, dict_delitem key d)
    else (Ok 0, d)
  else (Raise TypeError, d).

Definition exists_ (key : json) (d : dict) : result Z * dict :=
  if hashable key then
    (Ok (if dict_contains key d then 1 else 0), d)
  else (Raise TypeError, d).

End KeyValueStore.

(** ** struct.pack('!I', n) and struct.unpack('!I', header) *)

Definition byte_of_Z (z : Z) : byte :=
  match Byte.of_N (Z.to_N (z mod 256)) with
  | Some b => b
  | None => x00
  end.

Definition Z_of_byte (b : byte) : Z := Z.of_N (Byte.to_N b).

(** Four bytes, most significant first; [struct.error] outside
    [0 <= n < 2^32]. *)
Definition big_endian_4 (n : Z) : list byte :=
  [byte_of_Z (n / 2 ^ 24); byte_of_Z (n / 2 ^ 16);
   byte_of_Z (n / 2 ^ 8); byte_of_Z n].

Definition struct_pack_I (n : Z) : result (list byte) :=
  if (0 <=? n) && (n <? 2 ^ 32) then Ok (big_endian_4 n)
  else Raise StructError.

Definition struct_unpack_I (header : list byte) : result Z :=
  match header with
  | [b3; b2; b1; b0] =>
      Ok (((Z_of_byte b3 * 256 + Z_of_byte b2) * 256 + Z_of_byte b1) * 256
          + Z_of_byte b0)
  | _ => Raise StructError
  end.

(** ** The connection

    What the peer sends comes as a list of packets, in order; the end of
    the list is the peer closing its side.  [recv] hands out at most
    [bufsize] bytes of the first packet and leaves the rest of it first in
    line; the empty result is Python's end-of-stream. *)

Record socket : Type := Socket {
  incoming : list (list byte);
  outgoing : list byte
}.

Definition recv (sock : socket) (bufsize : nat) : list byte * socket :=
  match incoming sock with
  | [] => ([], sock)
  | packet :: rest =>
      let later := skipn bufsize packet in
      (firstn bufsize packet,
       Socket (match later with
               | [] => rest
               | _ :: _ => later :: rest
               end) (outgoing sock))
  end.

Definition sendall (sock : socket) (message : list byte) : socket :=
  Socket (incoming sock) (outgoing sock ++ message).

(** [read_fully]: the [while] loop, one turn per unit of [fuel];
    [None] is the fuel running out, [Some (None, _)] is the [return None]
    of the source.  A turn that goes on has received a byte at least, so
    [length] units are enough ([read_fully_loop_total]). *)
Fixpoint read_fully_loop (fuel : nat) (sock : socket) (data : list byte)
    (length : nat) : option (option (list byte) * socket) :=
  if (List.length data <? length)%nat then
    match fuel with
    | O => None
    | S fuel' =>
        let (packet, sock') := recv sock (length - List.length data) in
        match packet with
        | [] => Some (None, sock')
        | _ :: _ => read_fully_loop fuel' sock' (data ++ packet) length
        end
    end
  else Some (Some data, sock).

Definition read_fully (sock : socket) (length : nat)
    : option (option (list byte) * socket) :=
  read_fully_loop length sock [] length.

(** [not x] for the result of [read_fully]: [None] or an empty
    [bytearray]. *)
Definition falsy (x : option (list byte)) : bool :=
  match x with
  | None | Some [] => true
  | Some (_ :: _) => false
  end.

(** ** The responses *)

Definition OK_PONG : json := JList [JStr "OK"; JStr "PONG"].
Definition OK_ : json := JList [JStr "OK"].
Definition OK_value (value : json) : json := JList [JStr "OK"; value].
Definition OK_count (n : Z) : json := JList [JStr "OK"; JInt n].
Definition ERR_NOT_FOUND : json := JList [JStr "ERR"; JStr "NOT_FOUND"].
Definition ERR_UNKNOWN_COMMAND : json :=
  JList [JStr "ERR"; JStr "UNKNOWN_COMMAND"].
Definition ERR_INVALID_PAYLOAD : json :=
  JList [JStr "ERR"; JStr "INVALID_PAYLOAD"].

(** The status token of a response. *)
Definition status (response : json) : option string :=
  match response with
  | JList (JStr s :: _) => Some s
  | _ => None
  end.

(** ** handle_client: from the decoded payload to the response *)

Section CommandProtocol.

Variable upper : string -> string.

(** Step 4 of the loop body: the [if] / [elif] chain on [command] and
    [len(args)]. *)
Definition dispatch (command : string) (args : list json) (d : dict)
    : result json * dict :=
  if String.eqb command "PING" then (Ok OK_PONG, d)
  else if String.eqb command "SET" && (List.length args =? 2)%nat then
    let (r, d') := KeyValueStore.set (nth 0 args JNull) (nth 1 args JNull) d in
    match r with
    | Ok _ => (Ok OK_, d')
    | Raise e => (Raise e, d')
    end
  else if String.eqb command "GET" && (List.length args =? 1)%nat then
    let (r, d') := KeyValueStore.get (nth 0 args JNull) d in
    match r with
    | Ok value =>
        if is_not_None value then (Ok (OK_value value), d')
        else (Ok ERR_NOT_FOUND, d')
    | Raise e => (Raise e, d')
    end
  else if String.eqb command "DEL" && (List.length args =? 1)%nat then
    let (r, d') := KeyValueStore.delete (nth 0 args JNull) d in
    match r with
    | Ok num_deleted => (Ok (OK_count num_deleted), d')
    | Raise e => (Raise e, d')
    end
  else if String.eqb command "EXISTS" && (List.length args =? 1)%nat then
    let (r, d') := KeyValueStore.exists_ (nth 0 args JNull) d in
    match r with
    | Ok num_exists => (Ok (OK_count num_exists), d')
    | Raise e => (Raise e, d')
    end
  else (Ok ERR_UNKNOWN_COMMAND, d).

(** [command = command_list[0].upper()], [args = command_list[1:]], then
    the dispatch.  Only a [str] has [upper]. *)
Definition execute (command_list : list json) (d : dict)
    : result json * dict :=
  match command_list with
  | [] => (Raise IndexError, d)
  | JStr s :: args => dispatch (upper s) args d
  | _ :: _ => (Raise AttributeError, d)
  end.

(** The check of the [try] block on the decoded value
    ([not isinstance(command_list, list) or not command_list] raises the
    [ValueError] whose handler answers INVALID_PAYLOAD), then [execute]. *)
Definition process (decoded : json) (d : dict) : result json * dict :=
  match decoded with
  | JList (x :: l) => execute (x :: l) d
  | _ => (Ok ERR_INVALID_PAYLOAD, d)
  end.

End CommandProtocol.

(** ** pack_message and the loop of handle_client *)

Section Handler.

Variable upper : string -> string.

(** [json.loads(payload.decode('utf-8'))]: [None] when it raises
    ([UnicodeDecodeError] and [json.JSONDecodeError] are [ValueError]s,
    which the [except] clause of the [try] block catches). *)
Variable json_loads : list byte -> option json.

(** [json.dumps(data).encode('utf-8')] *)
Variable json_dumps : json -> list byte.

Definition pack_message (data : json) : result (list byte) :=
  let payload := json_dumps data in
  match struct_pack_I (Z.of_nat (List.length payload)) with
  | Ok header => Ok (header ++ payload)
  | Raise e => Raise e
  end.

(** How one turn of the [while True] loop ends: [Continue] is the next
    turn (the end of the body or the [continue] of the [except] clause),
    [Break] a [break], [Crash] an exception that leaves [handle_client];
    after the last two the [finally] clause closes the connection.
    [Unfinished] is [read_fully] out of fuel. *)
Inductive turn : Type :=
| Continue (sock : socket) (d : dict)
| Break (sock : socket) (d : dict)
| Crash (e : exn) (sock : socket) (d : dict)
| Unfinished.

(** [connection.sendall(pack_message(response))] *)
Definition respond (sock : socket) (d : dict) (response : json) : turn :=
  match pack_message response with
  | Ok message => Continue (sendall sock message) d
  | Raise e => Crash e sock d
  end.

(** Steps 3 and 4 of the loop body: the [try] block, whose handler
    makes the INVALID_PAYLOAD response, and the dispatch. *)
Definition handle_payload (payload : list byte) (d : dict)
    : result json * dict :=
  match json_loads payload with
  | None => (Ok ERR_INVALID_PAYLOAD, d)
  | Some command_list => process upper command_list d
  end.

Definition handle_iteration (sock : socket) (d : dict) : turn :=
  match read_fully sock 4 with
  | None => Unfinished
  | Some (header, sock1) =>
      if falsy header then Break sock1 d
      else
        match struct_unpack_I (match header with Some h => h | None => [] end) with
        | Raise e => Crash e sock1 d
        | Ok payload_length =>
            match read_fully sock1 (Z.to_nat payload_length) with
            | None => Unfinished
            | Some (payload, sock2) =>
                if falsy payload then Break sock2 d
                else
                  match handle_payload
                          (match payload with Some p => p | None => [] end) d
                  with
                  | (Ok response, d') => respond sock2 d' response
                  | (Raise e, d') => Crash e sock2 d'
                  end
            end
        end
  end.

(** The loop itself; what is left when it ends goes to the [finally]
    clause. *)
Inductive closed : Type :=
| Closed (e : option exn) (sock : socket) (d : dict).

Fixpoint handle_client (fuel : nat) (sock : socket) (d : dict)
    : option closed :=
  match fuel with
  | O => None
  | S fuel' =>
      match handle_iteration sock d with
      | Continue sock' d' => handle_client fuel' sock' d'
      | Break sock' d' => Some (Closed None sock' d')
      | Crash e sock' d' => Some (Closed (Some e) sock' d')
      | Unfinished => None
      end
  end.

End Handler.

(** ** class SSMPClient (ssmp_client.py)

    The client holds its connection in [_socket], [None] when it has
    none.  On its socket, [incoming] is what the server sends and
    [outgoing] what the client has sent.  An exception of a method is a
    [Raises] outcome: [ConnectionError] of the client itself,
    [ValueError] for what [json.loads] and [bytes.decode] raise, and
    [struct.error]. *)

Inductive client_error : Type :=
| ConnectionError (message : string)
| ValueError
| Struct_error.

Inductive outcome (A : Type) : Type :=
| Returns (a : A)
| Raises (e : client_error).

Arguments Returns {A} a.
Arguments Raises {A} e.

Record SSMPClient : Type := Client {
  host : string;
  port : Z;
  _socket : option socket
}.

Definition with_socket (self : SSMPClient) (sock : option socket)
    : SSMPClient :=
  Client (host self) (port self) sock.

(** [close]: the socket, if there is one, is closed and forgotten. *)
Definition close (self : SSMPClient) : SSMPClient :=
  match _socket self with
  | Some _ => with_socket self None
  | None => self
  end.

(** [_read_fully]: the loop of the server's [read_fully], with a
    [ConnectionError] where that one returns [None]. *)
Fixpoint _read_fully_loop (fuel : nat) (sock : socket) (data : list byte)
    (length : nat) : option (outcome (list byte) * socket) :=
  if (List.length data <? length)%nat then
    match fuel with
    | O => None
    | S fuel' =>
        let (packet, sock') := recv sock (length - List.length data) in
        match packet with
        | [] => Some (Raises (ConnectionError "Socket connection broken"),
                      sock')
        | _ :: _ => _read_fully_loop fuel' sock' (data ++ packet) length
        end
    end
  else Some (Returns data, sock).

Definition _read_fully (sock : socket) (length : nat)
    : option (outcome (list byte) * socket) :=
  _read_fully_loop length sock [] length.

Section Client.

Variable json_loads : list byte -> option json.
Variable json_dumps : json -> list byte.

Definition _pack_message (data : json) : outcome (list byte) :=
  let payload := json_dumps data in
  match struct_pack_I (Z.of_nat (List.length payload)) with
  | Ok header => Returns (header ++ payload)
  | Raise _ => Raises Struct_error
  end.

(** [_send_request]: the request is packed and sent, then the header
    and the payload of the response are read and the payload decoded.
    [None] is [_read_fully] out of fuel. *)
Definition _send_request (self : SSMPClient) (command_list : json)
    : option (outcome json * SSMPClient) :=
  match _socket self with
  | None =>
      Some (Raises (ConnectionError
                      "Client not connected. Call connect() first."), self)
  | Some sock =>
      match _pack_message command_list with
      | Raises e => Some (Raises e, self)
      | Returns message =>
          let sock0 := sendall sock message in
          match _read_fully sock0 4 with
          | None => None
          | Some (Raises e, sock1) =>
              Some (Raises e, with_socket self (Some sock1))
          | Some (Returns header, sock1) =>
              match struct_unpack_I header with
              | Raise _ =>
                  Some (Raises Struct_error, with_socket self (Some sock1))
              | Ok payload_length =>
                  match _read_fully sock1 (Z.to_nat payload_length) with
                  | None => None
                  | Some (Raises e, sock2) =>
                      Some (Raises e, with_socket self (Some sock2))
                  | Some (Returns payload, sock2) =>
                      match json_loads payload with
                      | None =>
                          Some (Raises ValueError,
                                with_socket self (Some sock2))
                      | Some response =>
                          Some (Returns response,
                                with_socket self (Some sock2))
                      end
                  end
              end
          end
      end
  end.

(** The public methods. *)
Definition ping (self : SSMPClient) :=
  _send_request self (JList [JStr "PING"]).

Definition get (self : SSMPClient) (key : json) :=
  _send_request self (JList [JStr "GET"; key]).

Definition set (self : SSMPClient) (key value : json) :=
  _send_request self (JList [JStr "SET"; key; value]).

Definition delete (self : SSMPClient) (key : json) :=
  _send_request self (JList [JStr "DEL"; key]).

Definition exists_ (self : SSMPClient) (key : json) :=
  _send_request self (JList [JStr "EXISTS"; key]).

End Client.

(** ** Frames and sessions

    [frame payload] is the frame of a payload as [pack_message] makes it.
    [replies] is what a run of [handle_payload] over the payloads of a
    session sends back, with the store it ends on; [None] when a payload
    makes the handler raise. *)

Definition frame (payload : list byte) : list byte :=
  big_endian_4 (Z.of_nat (List.length payload)) ++ payload.

Section Session.

Variable upper : string -> string.
Variable json_loads : list byte -> option json.
Variable json_dumps : json -> list byte.

Fixpoint replies (payloads : list (list byte)) (d : dict)
    : option (list byte * dict) :=
  match payloads with
  | [] => Some ([], d)
  | payload :: later =>
      match handle_payload upper json_loads payload d with
      | (Ok response, d') =>
          match pack_message json_dumps response, replies later d' with
          | Ok message, Some (sent, d'') => Some (message ++ sent, d'')
          | _, _ => None
          end
      | (Raise _, _) => None
      end
  end.

End Session.

(** A payload that a frame can carry and that the loop does not take
    for the end of the stream. *)
Definition framable (payload : list byte) : bool :=
  match payload with
  | [] => false
  | _ :: _ => Z.of_nat (List.length payload) <? 2 ^ 32
  end.

(** ** Predicates of the statements *)

(** The arity of each command, as the table of the protocol gives it. *)
Definition arity (command : string) : option nat :=
  if String.eqb command "PING" then Some 0%nat
  else if String.eqb command "SET" then Some 2%nat
  else if String.eqb command "GET" then Some 1%nat
  else if String.eqb command "DEL" then Some 1%nat
  else if String.eqb command "EXISTS" then Some 1%nat
  else None.

(** A non-empty list of string tokens. *)
Definition string_tokens (decoded : json) : bool :=
  match decoded with
  | JList (x :: l) => forallb is_str (x :: l)
  | _ => false
  end.

(** A list, and not the empty one: what the [try] block lets through. *)
Definition nonempty_list (decoded : json) : bool :=
  match decoded with
  | JList (_ :: _) => true
  | _ => false
  end.

(** No packet of the list is empty: the peer has not closed its side
    before the end of the list. *)
Definition no_empty_packet (packets : list (list byte)) : bool :=
  forallb (fun p => match p with [] => false | _ :: _ => true end) packets.

(** ** Instances for examples

    [ascii_upper] is [str.upper] on ASCII text; [ascii_dumps] writes
    lists of ASCII strings without escapes and integers the way
    [json.dumps] does, which covers the responses of the examples. *)

Definition ascii_upper_char (c : ascii) : ascii :=
  let n := nat_of_ascii c in
  if ((97 <=? n) && (n <=? 122))%nat then ascii_of_nat (n - 32) else c.

Fixpoint ascii_upper (s : string) : string :=
  match s with
  | EmptyString => EmptyString
  | String c t => String (ascii_upper_char c) (ascii_upper t)
  end.

Definition digit_byte (d : Z) : byte := byte_of_Z (48 + d).

Fixpoint decimal_loop (fuel : nat) (n : Z) (acc : list byte) : list byte :=
  match fuel with
  | O => acc
  | S fuel' =>
      if n <? 10 then digit_byte n :: acc
      else decimal_loop fuel' (n / 10) (digit_byte (n mod 10) :: acc)
  end.

Definition decimal (n : Z) : list byte :=
  if n <? 0 then x2d :: decimal_loop (Z.to_nat (- n)) (- n) []
  else decimal_loop (S (Z.to_nat n)) n [].

Definition ascii_dumps_item (v : json) : list byte :=
  match v with
  | JStr s => x22 :: list_byte_of_string s ++ [x22]
  | JInt n => decimal n
  | JBool true => list_byte_of_string "true"
  | JBool false => list_byte_of_string "false"
  | _ => list_byte_of_string "null"
  end.

Fixpoint ascii_dumps_items (l : list json) : list byte :=
  match l with
  | [] => []
  | [v] => ascii_dumps_item v
  | v :: t => ascii_dumps_item v ++ [x2c; x20] ++ ascii_dumps_items t
  end.

Definition ascii_dumps (v : json) : list byte :=
  match v with
  | JList l => x5b :: ascii_dumps_items l ++ [x5d]
  | _ => ascii_dumps_item v
  end.

(** The payload of ["OK", "PONG"] and a connection on which its frame
    arrives in three packets, followed by one more byte. *)
Definition pong_payload : list byte :=
  [x5b; x22; x4f; x4b; x22; x2c; x20; x22; x50; x4f; x4e; x47; x22; x5d].

Definition pong_socket : socket :=
  Socket [[x00; x00]; [x00; x0e; x5b; x22; x4f];
          [x4b; x22; x2c; x20; x22; x50; x4f; x4e; x47; x22; x5d; x00]] [].

(** A decoder for the examples: every payload is the request
    ["set", "k"]. *)
Definition set_k_loads (payload : list byte) : option json :=
  Some (JList [JStr "set"; JStr "k"]).

(** A decoder for the examples: the inverse of [ascii_dumps] on the
    values of [sample_values], a [ValueError] on every other payload. *)
Definition sample_values : list json :=
  [JList [JStr "PING"]; OK_PONG; OK_; OK_value (JStr "v");
   JList [JStr "SET"; JStr "k"; JStr "v"]; JList [JStr "GET"; JStr "k"];
   JList [JInt 5]].

Definition sample_loads (payload : list byte) : option json :=
  find (fun v => String.eqb (string_of_list_byte (ascii_dumps v))
                            (string_of_list_byte payload))
       sample_values.

(** The bytes of a stream in two packets, the first of three bytes. *)
Definition in_two_packets (bytes : list byte) : list (list byte) :=
  [firstn 3 bytes; skipn 3 bytes].

(** The requests of the examples, as payloads. *)
Definition ping_payload : list byte := ascii_dumps (JList [JStr "PING"]).
Definition set_payload : list byte :=
  ascii_dumps (JList [JStr "SET"; JStr "k"; JStr "v"]).
Definition get_payload : list byte :=
  ascii_dumps (JList [JStr "GET"; JStr "k"]).
Definition five_payload : list byte := ascii_dumps (JList [JInt 5]).

(** Connections for the examples: the frame of a PING and one byte
    more, the frame of the request [5], a SET and a GET one after the
    other, and the frame of ["OK", "PONG"] as a client receives it. *)
Definition ping_socket : socket :=
  Socket (in_two_packets (frame ping_payload ++ [x00])) [].

Definition five_socket : socket :=
  Socket (in_two_packets (frame five_payload)) [].

Definition set_get_socket : socket :=
  Socket (in_two_packets (frame set_payload ++ frame get_payload)) [].

Definition pong_reply_socket : socket :=
  Socket (in_two_packets (frame pong_payload)) [].

Definition sample_client (sock : socket) : SSMPClient :=
  Client "127.0.0.1" 6380 (Some sock).

(** * Properties *)

(** ** Keys that are strings *)

Lemma py_eq_str_refl (k : string) : py_eq (JStr k) (JStr k) = true.
Proof. simpl. apply String.eqb_refl. Qed.

Lemma py_eq_str_r (x : json) (k : string) :
  py_eq x (JStr k) = true -> x = JStr k.
Proof.
  destruct x; simpl; try discriminate.
  intros H. apply String.eqb_eq in H. now subst.
Qed.

(** ** The mapping *)

Section Mapping.

Variable key : json.
Hypothesis key_refl : py_eq key key = true.

Lemma dict_get_setitem (value : json) (d : dict) :
  dict_get key (dict_setitem key value d) = value.
Proof.
  induction d as [| [k v] t IH]; simpl.
  - now rewrite key_refl.
  - destruct (py_eq k key) eqn:E; simpl; now rewrite E.
Qed.

Lemma dict_contains_setitem (value : json) (d : dict) :
  dict_contains key (dict_setitem key value d) = true.
Proof.
  induction d as [| [k v] t IH]; simpl.
  - now rewrite key_refl.
  - destruct (py_eq k key) eqn:E; simpl; rewrite E; auto.
Qed.

End Mapping.

Lemma dict_get_absent (key : json) (d : dict) :
  dict_contains key d = false -> dict_get key d = JNull.
Proof.
  induction d as [| [k v] t IH]; simpl; auto.
  intros H. apply orb_false_iff in H as [E H]. rewrite E. auto.
Qed.

Lemma dict_delitem_absent (key : json) (d : dict) :
  dict_contains key d = false -> dict_delitem key d = d.
Proof.
  induction d as [| [k v] t IH]; simpl; auto.
  intros H. apply orb_false_iff in H as [E H]. rewrite E. f_equal. auto.
Qed.

(** Once deleted, a string key is in the mapping no more. *)
Lemma dict_contains_delitem (k : string) (d : dict) :
  dict_wf d = true ->
  dict_contains (JStr k) (dict_delitem (JStr k) d) = false.
Proof.
  induction d as [| [k' v] t IH]; simpl; auto.
  intros H. apply andb_true_iff in H as [Hk Ht].
  destruct (py_eq k' (JStr k)) eqn:E.
  - apply py_eq_str_r in E. subst k'.
    now apply negb_true_iff in Hk.
  - simpl. rewrite E. simpl. auto.
Qed.

Lemma all_strings_setitem (k v : string) (d : dict) :
  all_strings d = true ->
  all_strings (dict_setitem (JStr k) (JStr v) d) = true.
Proof.
  unfold all_strings.
  induction d as [| [k' v'] t IH]; simpl; auto.
  intros H. apply andb_true_iff in H as [Hk Ht].
  apply andb_true_iff in Hk as [Hk Hv].
  destruct (py_eq k' (JStr k)); simpl; rewrite Hk; simpl.
  - exact Ht.
  - rewrite Hv. simpl. auto.
Qed.

Lemma all_strings_delitem (key : json) (d : dict) :
  all_strings d = true -> all_strings (dict_delitem key d) = true.
Proof.
  unfold all_strings.
  induction d as [| [k' v'] t IH]; simpl; auto.
  intros H. apply andb_true_iff in H as [Hk Ht].
  destruct (py_eq k' key); simpl; auto.
  rewrite Hk. simpl. auto.
Qed.

(** ** Well-formedness of the mapping is an invariant

    Equality of keys is symmetric, so a key that [dict_setitem] appends
    is equal to none of the keys before it. *)

Lemma SFeqb_sym (f g : spec_float) : SFeqb f g = SFeqb g f.
Proof.
  unfold SFeqb.
  destruct f as [s1 | s1 | | s1 m1 e1], g as [s2 | s2 | | s2 m2 e2];
    simpl; try reflexivity;
    try (destruct s1; reflexivity); try (destruct s2; reflexivity);
    try (destruct s1, s2; reflexivity).
  destruct s1, s2; try reflexivity;
    rewrite (Z.compare_antisym e1 e2);
    destruct (e1 ?= e2); simpl; try reflexivity;
    pose proof (Pos.compare_cont_antisym m1 m2 Eq) as A; simpl in A;
    rewrite <- A; destruct (Pos.compare_cont Eq m1 m2); reflexivity.
Qed.

Lemma number_eqb_sym (x y : number) : number_eqb x y = number_eqb y x.
Proof.
  destruct x, y; simpl; auto using Z.eqb_sym, SFeqb_sym.
Qed.

Lemma py_eq_sym (a b : json) : py_eq a b = py_eq b a.
Proof.
  destruct a, b; try reflexivity; unfold py_eq, as_number;
    solve [apply number_eqb_sym | apply String.eqb_sym].
Qed.

Lemma dict_contains_setitem_other (key value x : json) (d : dict) :
  py_eq key x = false ->
  dict_contains x (dict_setitem key value d) = dict_contains x d.
Proof.
  intros Hx.
  induction d as [| [k v] t IH]; simpl.
  - now rewrite Hx.
  - destruct (py_eq k key); simpl; auto. now rewrite IH.
Qed.

Lemma dict_wf_setitem (key value : json) (d : dict) :
  dict_wf d = true -> dict_wf (dict_setitem key value d) = true.
Proof.
  induction d as [| [k v] t IH]; simpl; auto.
  intros H. apply andb_true_iff in H as [Hk Ht].
  destruct (py_eq k key) eqn:E; simpl.
  - now rewrite Hk, Ht.
  - rewrite dict_contains_setitem_other by (now rewrite py_eq_sym).
    rewrite Hk. simpl. auto.
Qed.

Lemma dict_contains_delitem_le (key x : json) (d : dict) :
  dict_contains x d = false ->
  dict_contains x (dict_delitem key d) = false.
Proof.
  induction d as [| [k v] t IH]; simpl; auto.
  intros H. apply orb_false_iff in H as [E H].
  destruct (py_eq k key); simpl; auto.
  rewrite E. simpl. auto.
Qed.

Lemma dict_wf_delitem (key : json) (d : dict) :
  dict_wf d = true -> dict_wf (dict_delitem key d) = true.
Proof.
  induction d as [| [k v] t IH]; simpl; auto.
  intros H. apply andb_true_iff in H as [Hk Ht].
  destruct (py_eq k key); simpl; auto.
  apply negb_true_iff in Hk.
  rewrite (dict_contains_delitem_le key k t Hk). simpl. auto.
Qed.

(** ** The command protocol *)

Ltac unfold_store :=
  unfold KeyValueStore.set, KeyValueStore.get, KeyValueStore.delete,
    KeyValueStore.exists_ in *.

(** Splits the first test of an [if] of the hypothesis [H]. *)
Ltac split_if H :=
  match type of H with
  | context [if ?b then _ else _] =>
      let E := fresh "E" in destruct b eqn:E
  end.

Section CommandProperties.

Variable upper : string -> string.

(** C1. After SET k v, which answers ["OK"], GET k answers ["OK", v],
    for all strings k and v, the empty one and those with control
    characters among them. *)
Theorem set_then_get (set get k v : string) (d : dict) :
  upper set = "SET" ->
  upper get = "GET" ->
  let d' := dict_setitem (JStr k) (JStr v) d in
  process upper (JList [JStr set; JStr k; JStr v]) d = (Ok OK_, d') /\
  process upper (JList [JStr get; JStr k]) d' = (Ok (OK_value (JStr v)), d').
Proof.
  intros Hset Hget d'. unfold process, execute, dispatch.
  rewrite Hset, Hget. simpl. split; [reflexivity |].
  unfold d'. rewrite dict_get_setitem by apply py_eq_str_refl.
  reflexivity.
Qed.

(** C7. GET k on a key that is not in the store answers
    ["ERR","NOT_FOUND"]: no exception, no success response. *)
Theorem get_absent (get k : string) (d : dict) :
  upper get = "GET" ->
  dict_contains (JStr k) d = false ->
  process upper (JList [JStr get; JStr k]) d = (Ok ERR_NOT_FOUND, d).
Proof.
  intros Hget Habs. unfold process, execute, dispatch.
  rewrite Hget. simpl. now rewrite (dict_get_absent _ _ Habs).
Qed.

(** C6. DEL k answers ["OK", 0] and leaves the store as it is when k is
    absent; it answers ["OK", 1] and removes k when k is present, and
    EXISTS k then answers ["OK", 0]. *)
Theorem del_semantics (del exists_ k : string) (d : dict) :
  upper del = "DEL" ->
  upper exists_ = "EXISTS" ->
  dict_wf d = true ->
  let d' := dict_delitem (JStr k) d in
  process upper (JList [JStr del; JStr k]) d
    = (if dict_contains (JStr k) d then (Ok (OK_count 1), d')
       else (Ok (OK_count 0), d)) /\
  process upper (JList [JStr exists_; JStr k]) d' = (Ok (OK_count 0), d').
Proof.
  intros Hdel Hex Hwf d'. unfold process, execute, dispatch.
  rewrite Hdel, Hex. unfold_store. simpl. split.
  - now destruct (dict_contains (JStr k) d).
  - unfold d'. now rewrite (dict_contains_delitem k d Hwf).
Qed.

(** C10. A value that is JSON null is absence for GET and presence for
    EXISTS: after SET k null, which answers ["OK"], GET k answers
    ["ERR","NOT_FOUND"] and EXISTS k answers ["OK", 1]. *)
Theorem set_null_get_exists (set get exists_ k : string) (d : dict) :
  upper set = "SET" ->
  upper get = "GET" ->
  upper exists_ = "EXISTS" ->
  let d' := dict_setitem (JStr k) JNull d in
  process upper (JList [JStr set; JStr k; JNull]) d = (Ok OK_, d') /\
  process upper (JList [JStr get; JStr k]) d' = (Ok ERR_NOT_FOUND, d') /\
  process upper (JList [JStr exists_; JStr k]) d' = (Ok (OK_count 1), d').
Proof.
  intros Hset Hget Hex d'. unfold process, execute, dispatch.
  rewrite Hset, Hget, Hex. unfold_store. simpl. unfold d'.
  rewrite dict_get_setitem by apply py_eq_str_refl.
  rewrite dict_contains_setitem by apply py_eq_str_refl.
  auto.
Qed.

(** A decoded payload that is answered with the status token "ERR"
    leaves the store as it was. *)
Lemma process_err_leaves_store (decoded response : json) (d d' : dict) :
  process upper decoded d = (Ok response, d') ->
  status response = Some "ERR" ->
  d' = d.
Proof.
  intros H Hs. unfold process in H.
  destruct decoded as [| | | | | [| x l] |]; try (now inversion H).
  unfold execute in H. destruct x; try discriminate.
  unfold dispatch in H. unfold_store.
  repeat (split_if H; simpl in H);
    inversion H; subst; try reflexivity; discriminate.
Qed.

(** PING is answered whatever follows the command token: its branch, the
    first of the chain, does not look at [len(args)]. *)
Lemma ping_any_arity (ping : string) (args : list json) (d : dict) :
  upper ping = "PING" ->
  process upper (JList (JStr ping :: args)) d = (Ok OK_PONG, d).
Proof.
  intros Hping. unfold process, execute, dispatch. now rewrite Hping.
Qed.


(** C4, as the code has it. A decoded payload that is not a list, or is
    the empty list, is answered ["ERR","INVALID_PAYLOAD"] with the store
    untouched and nothing raised. *)
Theorem invalid_shape (decoded : json) (d : dict) :
  nonempty_list decoded = false ->
  process upper decoded d = (Ok ERR_INVALID_PAYLOAD, d).
Proof.
  destruct decoded as [| | | | | [| x l] |]; simpl; try reflexivity.
  discriminate.
Qed.

(** C9, as the code has it. The store keeps holding strings only
    through every request other than a SET of two arguments whose key
    or value is not a string. *)
Theorem strings_preserved (decoded : json) (d : dict) :
  all_strings d = true ->
  (forall c k v, decoded = JList [JStr c; k; v] -> upper c = "SET" ->
     is_str k && is_str v = true) ->
  all_strings (snd (process upper decoded d)) = true.
Proof.
  intros Hd Hset. unfold process.
  destruct decoded as [| | | | | [| x l] |]; simpl; try assumption.
  destruct x; simpl; try assumption.
  unfold dispatch. unfold_store.
  destruct (String.eqb (upper s) "PING"); [assumption |].
  destruct (String.eqb (upper s) "SET" && (List.length l =? 2)%nat) eqn:E1.
  { apply andb_true_iff in E1 as [Es El].
    destruct l as [| k [| v [| w l]]]; try discriminate.
    apply String.eqb_eq in Es.
    specialize (Hset s k v eq_refl Es).
    destruct k; try discriminate. destruct v; try discriminate.
    simpl. now apply all_strings_setitem. }
  destruct (String.eqb (upper s) "GET" && (List.length l =? 1)%nat).
  { destruct (hashable (nth 0 l JNull)); simpl; [| assumption].
    now destruct (is_not_None _). }
  destruct (String.eqb (upper s) "DEL" && (List.length l =? 1)%nat).
  { destruct (hashable (nth 0 l JNull)); simpl; [| assumption].
    destruct (dict_contains _ d); simpl; [| assumption].
    now apply all_strings_delitem. }
  destruct (String.eqb (upper s) "EXISTS" && (List.length l =? 1)%nat).
  { now destruct (hashable (nth 0 l JNull)). }
  assumption.
Qed.

(** X23. No request makes a key occur twice in the mapping, two keys
    that Python holds equal ([1] and [True]) being one key: a mapping
    that is well formed is well formed after every request. *)
Lemma process_wf (decoded : json) (d : dict) :
  dict_wf d = true -> dict_wf (snd (process upper decoded d)) = true.
Proof.
  intros Hd. unfold process.
  destruct decoded as [| | | | | [| x l] |]; simpl; try assumption.
  destruct x; simpl; try assumption.
  unfold dispatch. unfold_store.
  repeat match goal with
         | |- context [if ?b then _ else _] => destruct b; simpl
         end;
    auto using dict_wf_setitem, dict_wf_delitem.
Qed.

End CommandProperties.

(** ** The frame codec *)

Lemma Z_of_byte_of_Z (z : Z) : Z_of_byte (byte_of_Z z) = z mod 256.
Proof.
  unfold Z_of_byte, byte_of_Z.
  assert (B : 0 <= z mod 256 < 256) by (apply Z.mod_pos_bound; lia).
  destruct (Byte.of_N (Z.to_N (z mod 256))) as [b |] eqn:E.
  - apply Byte.to_of_N in E. rewrite E. lia.
  - apply Byte.of_N_None_iff in E. lia.
Qed.

Lemma struct_unpack_pack (n : Z) :
  0 <= n < 2 ^ 32 -> struct_unpack_I (big_endian_4 n) = Ok n.
Proof.
  intros B. unfold struct_unpack_I, big_endian_4.
  rewrite !Z_of_byte_of_Z. f_equal.
  change (2 ^ 24) with (256 * (256 * 256)).
  change (2 ^ 16) with (256 * 256).
  change (2 ^ 8) with 256.
  change (2 ^ 32) with (256 * (256 * (256 * 256))) in B.
  rewrite <- !Z.div_div by lia.
  pose proof (Z.div_mod n 256 ltac:(lia)) as D0.
  pose proof (Z.div_mod (n / 256) 256 ltac:(lia)) as D1.
  pose proof (Z.div_mod (n / 256 / 256) 256 ltac:(lia)) as D2.
  assert (S3 : 0 <= n / 256 / 256 / 256 < 256).
  { split.
    - repeat apply Z.div_pos; lia.
    - repeat (apply Z.div_lt_upper_bound; [lia |]). lia. }
  rewrite (Z.mod_small (n / 256 / 256 / 256) 256 S3).
  lia.
Qed.

Lemma app_split_prefix {A : Type} (a b c d : list A) :
  a ++ b = c ++ d -> (List.length a <= List.length c)%nat ->
  exists c', c = a ++ c' /\ b = c' ++ d.
Proof.
  revert c. induction a as [| x a IH]; intros c H L; simpl in *.
  - exists c. auto.
  - destruct c as [| y c]; simpl in *; [lia |].
    injection H as -> H.
    destruct (IH c H ltac:(lia)) as (c' & -> & ->).
    exists c'. auto.
Qed.

(** [read_fully] does not run out of fuel. *)
Lemma read_fully_loop_total (fuel : nat) :
  forall (sock : socket) (data : list byte) (length : nat),
  (length - List.length data <= fuel)%nat ->
  read_fully_loop fuel sock data length <> None.
Proof.
  induction fuel as [| fuel IH]; intros sock data length L; simpl.
  - destruct (Nat.ltb_spec (List.length data) length); [lia | discriminate].
  - destruct (Nat.ltb_spec (List.length data) length); [| discriminate].
    destruct (recv sock (length - List.length data)) as [packet sock'].
    destruct packet as [| b packet]; [discriminate |].
    apply IH. rewrite length_app. simpl. lia.
Qed.

Lemma read_fully_total (sock : socket) (length : nat) :
  read_fully sock length <> None.
Proof. apply read_fully_loop_total. lia. Qed.

Lemma no_empty_packet_later (later : list byte) (rest : list (list byte)) :
  no_empty_packet rest = true ->
  no_empty_packet (match later with [] => rest | _ :: _ => later :: rest end)
    = true /\
  List.concat (match later with [] => rest | _ :: _ => later :: rest end)
    = later ++ List.concat rest.
Proof. destruct later; simpl; auto. Qed.

(** When the bytes [bs] are the next to come, in whatever packets,
    [read_fully] returns them, and what follows them is what is left
    to read. *)
Lemma read_fully_loop_spec (fuel : nat) :
  forall (sock : socket) (data : list byte) (length : nat)
         (bs rest : list byte),
  no_empty_packet (incoming sock) = true ->
  List.concat (incoming sock) = bs ++ rest ->
  (List.length data + List.length bs = length)%nat ->
  (List.length bs <= fuel)%nat ->
  exists sock',
    read_fully_loop fuel sock data length = Some (Some (data ++ bs), sock') /\
    no_empty_packet (incoming sock') = true /\
    List.concat (incoming sock') = rest /\
    outgoing sock' = outgoing sock.
Proof.
  induction fuel as [| fuel IH]; intros sock data length bs rest Hne Hcat Hlen Hfuel.
  - destruct bs; [| simpl in Hfuel; lia].
    simpl in *. rewrite app_nil_r.
    destruct (Nat.ltb_spec (List.length data) length); [lia |].
    exists sock. auto.
  - simpl.
    destruct (Nat.ltb_spec (List.length data) length) as [Lt | Ge].
    + unfold recv.
      destruct (incoming sock) as [| p ps] eqn:Ei.
      { simpl in Hcat. symmetry in Hcat. apply app_eq_nil in Hcat as [-> _].
        simpl in Hlen. lia. }
      simpl in Hne, Hcat.
      destruct p as [| b p]; [discriminate |].
      replace (length - List.length data)%nat with (List.length bs) by lia.
      destruct bs as [| b' bs]; [simpl in Hlen; lia |].
      cbn [List.length firstn skipn]. cbv zeta.
      set (n := List.length bs) in *.
      assert (Hsplit : (b :: firstn n p) ++ (skipn n p ++ List.concat ps)
                       = (b' :: bs) ++ rest).
      { rewrite <- Hcat. simpl. f_equal.
        now rewrite app_assoc, firstn_skipn. }
      apply app_split_prefix in Hsplit as (bs' & Hbs & Hrest).
      2:{ simpl. rewrite length_firstn. unfold n. lia. }
      destruct (no_empty_packet_later (skipn n p) ps Hne) as [Hne' Hcat'].
      destruct (IH (Socket (match skipn n p with
                            | [] => ps
                            | _ :: _ => skipn n p :: ps
                            end) (outgoing sock))
                   (data ++ b :: firstn n p) length bs' rest)
        as (sock' & Hrun & Hne2 & Hcat2 & Hout); simpl.
      * exact Hne'.
      * congruence.
      * rewrite length_app. rewrite <- Hlen. rewrite Hbs.
        rewrite length_app. lia.
      * assert (L : List.length (b' :: bs)
                    = (List.length (b :: firstn n p) + List.length bs')%nat)
          by (rewrite Hbs; apply length_app).
        simpl in L, Hfuel. lia.
      * exists sock'. rewrite Hrun, Hbs. rewrite <- app_assoc.
        simpl in Hout. auto.
    + destruct bs; [| simpl in Hlen; lia].
      rewrite app_nil_r. simpl in Hcat. exists sock. auto.
Qed.

Lemma read_fully_spec (sock : socket) (bs rest : list byte) :
  no_empty_packet (incoming sock) = true ->
  List.concat (incoming sock) = bs ++ rest ->
  exists sock',
    read_fully sock (List.length bs) = Some (Some bs, sock') /\
    no_empty_packet (incoming sock') = true /\
    List.concat (incoming sock') = rest /\
    outgoing sock' = outgoing sock.
Proof.
  intros Hne Hcat.
  apply (read_fully_loop_spec (List.length bs) sock [] (List.length bs) bs rest);
    auto.
Qed.

Section FrameProperties.

Variable upper : string -> string.
Variable json_loads : list byte -> option json.
Variable json_dumps : json -> list byte.

Lemma pack_message_ok (data : json) :
  Z.of_nat (List.length (json_dumps data)) < 2 ^ 32 ->
  pack_message json_dumps data
  = Ok (big_endian_4 (Z.of_nat (List.length (json_dumps data)))
        ++ json_dumps data).
Proof.
  intros B. unfold pack_message, struct_pack_I.
  destruct (Z.leb_spec 0 (Z.of_nat (List.length (json_dumps data))));
    [| lia].
  destruct (Z.ltb_spec (Z.of_nat (List.length (json_dumps data))) (2 ^ 32));
    [reflexivity | lia].
Qed.

(** C5. [pack_message] writes the length of the payload on four bytes,
    most significant first, then the payload; reading the four bytes,
    decoding them and reading as many bytes as they say gives the payload
    back, whatever the packets the frame arrives in, for a payload of
    less than 2^32 bytes. *)
Theorem framing_round_trip (data : json) (sock : socket) (rest : list byte) :
  Z.of_nat (List.length (json_dumps data)) < 2 ^ 32 ->
  no_empty_packet (incoming sock) = true ->
  List.concat (incoming sock)
  = big_endian_4 (Z.of_nat (List.length (json_dumps data)))
    ++ json_dumps data ++ rest ->
  let payload := json_dumps data in
  let n := Z.of_nat (List.length payload) in
  pack_message json_dumps data = Ok (big_endian_4 n ++ payload) /\
  List.length (big_endian_4 n) = 4%nat /\
  struct_unpack_I (big_endian_4 n) = Ok n /\
  exists sock1 sock2 : socket,
    read_fully sock 4 = Some (Some (big_endian_4 n), sock1) /\
    read_fully sock1 (Z.to_nat n) = Some (Some payload, sock2) /\
    List.concat (incoming sock2) = rest.
Proof.
  intros B Hne Hcat payload n.
  split; [now apply pack_message_ok |].
  split; [reflexivity |].
  split; [apply struct_unpack_pack; subst n payload; lia |].
  destruct (read_fully_spec sock (big_endian_4 n) (payload ++ rest) Hne Hcat)
    as (sock1 & R1 & Hne1 & Hcat1 & _).
  destruct (read_fully_spec sock1 payload rest Hne1 Hcat1)
    as (sock2 & R2 & _ & Hcat2 & _).
  exists sock1, sock2. unfold n. rewrite Nat2Z.id. auto.
Qed.

(** C3, at the frame of length zero. The four bytes 00 00 00 00 make
    [read_fully] return an empty [bytearray], which [if not payload]
    takes for the end of the stream: the loop is left, nothing is sent,
    the connection is closed with what follows unread. *)
Theorem empty_payload_closes (rest : list (list byte)) (out : list byte)
    (d : dict) (fuel : nat) :
  let sock := Socket ([x00; x00; x00; x00] :: rest) out in
  handle_iteration upper json_loads json_dumps sock d
  = Break (Socket rest out) d /\
  handle_client upper json_loads json_dumps (S fuel) sock d
  = Some (Closed None (Socket rest out) d).
Proof. split; reflexivity. Qed.

(** C8. A request that is answered with the status token "ERR" (a
    payload that does not decode, an invalid shape, an unknown command,
    a wrong number of arguments, a key that is not found) leaves the
    store as it was. *)
Theorem err_leaves_store (payload : list byte) (response : json)
    (d d' : dict) :
  handle_payload upper json_loads payload d = (Ok response, d') ->
  status response = Some "ERR" ->
  d' = d.
Proof.
  unfold handle_payload. intros H Hs.
  destruct (json_loads payload) as [decoded |].
  - exact (process_err_leaves_store upper decoded response d d' H Hs).
  - now inversion H.
Qed.


End FrameProperties.

(** * The properties on examples *)

(** The scenario of the demonstration client. *)
Example end_to_end_scenario :
  let run := process ascii_upper in
  let d1 := [(JStr "user:1", JStr "Alice")] in
  run (JList [JStr "PING"]) [] = (Ok OK_PONG, []) /\
  run (JList [JStr "SET"; JStr "user:1"; JStr "Alice"]) [] = (Ok OK_, d1) /\
  run (JList [JStr "GET"; JStr "user:1"]) d1
    = (Ok (OK_value (JStr "Alice")), d1) /\
  run (JList [JStr "EXISTS"; JStr "user:1"]) d1 = (Ok (OK_count 1), d1) /\
  run (JList [JStr "DEL"; JStr "user:1"]) d1 = (Ok (OK_count 1), []) /\
  run (JList [JStr "EXISTS"; JStr "user:1"]) [] = (Ok (OK_count 0), []) /\
  run (JList [JStr "GET"; JStr "user:1"]) [] = (Ok ERR_NOT_FOUND, []).
Proof. repeat split. Qed.

(** C1 on the empty key and a value with a control character. *)
Lemma set_then_get_witness :
  ascii_upper "set" = "SET" /\
  ascii_upper "Get" = "GET" /\
  process ascii_upper
    (JList [JStr "set"; JStr ""; JStr (String "007"%char "bell")])
    [(JStr "", JStr "old")]
  = (Ok OK_, [(JStr "", JStr (String "007"%char "bell"))]) /\
  process ascii_upper (JList [JStr "Get"; JStr ""])
    [(JStr "", JStr (String "007"%char "bell"))]
  = (Ok (OK_value (JStr (String "007"%char "bell"))),
     [(JStr "", JStr (String "007"%char "bell"))]).
Proof.
  split; [reflexivity |]. split; [reflexivity |].
  apply (set_then_get ascii_upper "set" "Get" ""
           (String "007"%char "bell") [(JStr "", JStr "old")]);
    reflexivity.
Defined.

(** C2 at PING with one argument: the arity of PING is 0, the request
    has one argument, and the answer is ["OK","PONG"]. *)
Theorem ping_with_argument (d : dict) :
  string_tokens (JList [JStr "PING"; JStr "x"]) = true /\
  arity (ascii_upper "PING") <> Some (List.length [JStr "x"]) /\
  process ascii_upper (JList [JStr "PING"; JStr "x"]) d = (Ok OK_PONG, d).
Proof. repeat split. discriminate. Qed.

(** C4 fails at a list whose first token is a string and whose last is
    a number: it is not a list of string tokens, and it is executed. *)
Lemma invalid_payload_counterexample :
  string_tokens (JList [JStr "SET"; JStr "k"; JInt 5]) = false /\
  process ascii_upper (JList [JStr "SET"; JStr "k"; JInt 5]) []
  = (Ok OK_, [(JStr "k", JInt 5)]) /\
  process ascii_upper (JList [JStr "SET"; JStr "k"; JInt 5]) []
  <> (Ok ERR_INVALID_PAYLOAD, []).
Proof. repeat split. discriminate. Qed.

(** Keys that are not strings: [1] and [True] are one key. *)
Example numeric_keys_coincide :
  process ascii_upper (JList [JStr "SET"; JInt 1; JStr "a"]) []
  = (Ok OK_, [(JInt 1, JStr "a")]) /\
  process ascii_upper (JList [JStr "GET"; JBool true]) [(JInt 1, JStr "a")]
  = (Ok (OK_value (JStr "a")), [(JInt 1, JStr "a")]).
Proof. split; reflexivity. Qed.

(** A list whose first element is a number: [upper] raises. *)
Example non_string_command_raises (d : dict) :
  process ascii_upper (JList [JInt 5]) d = (Raise AttributeError, d).
Proof. reflexivity. Qed.

(** A key that is a list: the store raises. *)
Example unhashable_key_raises (d : dict) :
  process ascii_upper (JList [JStr "GET"; JList [JStr "k"]]) d
  = (Raise TypeError, d).
Proof. reflexivity. Qed.

Lemma invalid_shape_witness :
  nonempty_list (JObject [("command", JStr "PING")]) = false /\
  process ascii_upper (JObject [("command", JStr "PING")])
    [(JStr "k", JStr "v")]
  = (Ok ERR_INVALID_PAYLOAD, [(JStr "k", JStr "v")]).
Proof.
  split; [reflexivity |].
  apply (invalid_shape ascii_upper); reflexivity.
Defined.

(** C6 on a key that is present. *)
Lemma del_semantics_witness :
  ascii_upper "del" = "DEL" /\
  ascii_upper "exists" = "EXISTS" /\
  dict_wf [(JStr "a", JStr "1"); (JStr "user:1", JStr "Alice")] = true /\
  process ascii_upper (JList [JStr "del"; JStr "user:1"])
    [(JStr "a", JStr "1"); (JStr "user:1", JStr "Alice")]
  = (Ok (OK_count 1), [(JStr "a", JStr "1")]) /\
  process ascii_upper (JList [JStr "exists"; JStr "user:1"])
    [(JStr "a", JStr "1")]
  = (Ok (OK_count 0), [(JStr "a", JStr "1")]).
Proof.
  split; [reflexivity |]. split; [reflexivity |]. split; [reflexivity |].
  apply (del_semantics ascii_upper "del" "exists" "user:1"
           [(JStr "a", JStr "1"); (JStr "user:1", JStr "Alice")]);
    reflexivity.
Defined.

Lemma get_absent_witness :
  ascii_upper "get" = "GET" /\
  dict_contains (JStr "user:1") [(JStr "a", JStr "1")] = false /\
  process ascii_upper (JList [JStr "get"; JStr "user:1"])
    [(JStr "a", JStr "1")]
  = (Ok ERR_NOT_FOUND, [(JStr "a", JStr "1")]).
Proof.
  split; [reflexivity |]. split; [reflexivity |].
  apply (get_absent ascii_upper); reflexivity.
Defined.

(** C8 on SET with one argument, which is answered UNKNOWN_COMMAND. *)
Lemma err_leaves_store_witness :
  handle_payload ascii_upper set_k_loads [x00] [(JStr "a", JStr "1")]
  = (Ok ERR_UNKNOWN_COMMAND, [(JStr "a", JStr "1")]) /\
  status ERR_UNKNOWN_COMMAND = Some "ERR" /\
  [(JStr "a", JStr "1")] = [(JStr "a", JStr "1")].
Proof.
  split; [reflexivity |]. split; [reflexivity |].
  apply (err_leaves_store ascii_upper set_k_loads [x00] ERR_UNKNOWN_COMMAND);
    reflexivity.
Defined.

(** C9 fails at a SET whose value is a number. *)
Lemma strings_counterexample :
  all_strings [] = true /\
  process ascii_upper (JList [JStr "SET"; JStr "k"; JInt 5]) []
  = (Ok OK_, [(JStr "k", JInt 5)]) /\
  all_strings [(JStr "k", JInt 5)] = false.
Proof. repeat split. Qed.

Lemma strings_preserved_witness :
  all_strings [(JStr "a", JStr "1")] = true /\
  (forall c k v,
     JList [JStr "set"; JStr "k"; JStr "v"] = JList [JStr c; k; v] ->
     ascii_upper c = "SET" -> is_str k && is_str v = true) /\
  all_strings
    (snd (process ascii_upper (JList [JStr "set"; JStr "k"; JStr "v"])
            [(JStr "a", JStr "1")])) = true.
Proof.
  assert (H : forall c k v,
             JList [JStr "set"; JStr "k"; JStr "v"] = JList [JStr c; k; v] ->
             ascii_upper c = "SET" -> is_str k && is_str v = true).
  { intros c k v E _. injection E as _ <- <-. reflexivity. }
  split; [reflexivity |]. split; [exact H |].
  apply (strings_preserved ascii_upper); [reflexivity | exact H].
Defined.

Lemma set_null_get_exists_witness :
  ascii_upper "set" = "SET" /\
  ascii_upper "get" = "GET" /\
  ascii_upper "exists" = "EXISTS" /\
  process ascii_upper (JList [JStr "set"; JStr "k"; JNull]) []
  = (Ok OK_, [(JStr "k", JNull)]) /\
  process ascii_upper (JList [JStr "get"; JStr "k"]) [(JStr "k", JNull)]
  = (Ok ERR_NOT_FOUND, [(JStr "k", JNull)]) /\
  process ascii_upper (JList [JStr "exists"; JStr "k"]) [(JStr "k", JNull)]
  = (Ok (OK_count 1), [(JStr "k", JNull)]).
Proof.
  split; [reflexivity |]. split; [reflexivity |]. split; [reflexivity |].
  apply (set_null_get_exists ascii_upper "set" "get" "exists" "k" []);
    reflexivity.
Defined.

(** C5 on the frame of ["OK", "PONG"], which comes in three packets, the
    first two cutting the header, the last one carrying the first byte of
    the next frame. *)
Lemma framing_round_trip_witness :
  Z.of_nat (List.length (ascii_dumps OK_PONG)) < 2 ^ 32 /\
  no_empty_packet (incoming pong_socket) = true /\
  List.concat (incoming pong_socket)
  = big_endian_4 (Z.of_nat (List.length (ascii_dumps OK_PONG)))
    ++ ascii_dumps OK_PONG ++ [x00] /\
  pack_message ascii_dumps OK_PONG = Ok ([x00; x00; x00; x0e] ++ pong_payload) /\
  struct_unpack_I [x00; x00; x00; x0e] = Ok 14 /\
  exists sock1 sock2 : socket,
    read_fully pong_socket 4 = Some (Some [x00; x00; x00; x0e], sock1) /\
    read_fully sock1 14 = Some (Some pong_payload, sock2) /\
    List.concat (incoming sock2) = [x00].
Proof.
  split; [reflexivity |]. split; [reflexivity |]. split; [reflexivity |].
  destruct (framing_round_trip ascii_dumps OK_PONG pong_socket [x00])
    as (Hpack & _ & Hunpack & sock1 & sock2 & R1 & R2 & Hrest);
    try reflexivity.
  split; [exact Hpack |]. split; [exact Hunpack |].
  exists sock1, sock2. auto.
Defined.

(** * Further properties of the store and of the dispatch *)

(** ** Keys apart from a string key *)

Lemma py_eq_str_other (k : string) (k' x : json) :
  py_eq k' (JStr k) = true -> py_eq (JStr k) x = false -> py_eq k' x = false.
Proof. intros E. apply py_eq_str_r in E. now subst. Qed.

Ltac dict_step := cbn [dict_get dict_setitem dict_contains dict_delitem].

Lemma dict_get_setitem_other (k : string) (v x : json) (d : dict) :
  py_eq (JStr k) x = false ->
  dict_get x (dict_setitem (JStr k) v d) = dict_get x d.
Proof.
  intros Hx. induction d as [| [k' v'] t IH]; dict_step.
  - now rewrite Hx.
  - destruct (py_eq k' (JStr k)) eqn:E; dict_step.
    + now rewrite (py_eq_str_other k k' x E Hx).
    + now rewrite IH.
Qed.

Lemma dict_get_delitem_other (k : string) (x : json) (d : dict) :
  py_eq (JStr k) x = false ->
  dict_get x (dict_delitem (JStr k) d) = dict_get x d.
Proof.
  intros Hx. induction d as [| [k' v'] t IH]; dict_step; auto.
  destruct (py_eq k' (JStr k)) eqn:E; dict_step.
  - now rewrite (py_eq_str_other k k' x E Hx).
  - now rewrite IH.
Qed.

Lemma dict_contains_delitem_other (k : string) (x : json) (d : dict) :
  py_eq (JStr k) x = false ->
  dict_contains x (dict_delitem (JStr k) d) = dict_contains x d.
Proof.
  intros Hx. induction d as [| [k' v'] t IH]; dict_step; auto.
  destruct (py_eq k' (JStr k)) eqn:E; dict_step.
  - now rewrite (py_eq_str_other k k' x E Hx).
  - now rewrite IH.
Qed.

Lemma dict_setitem_setitem (k : string) (v1 v2 : json) (d : dict) :
  dict_setitem (JStr k) v2 (dict_setitem (JStr k) v1 d)
  = dict_setitem (JStr k) v2 d.
Proof.
  induction d as [| [k' v'] t IH]; dict_step.
  - now rewrite py_eq_str_refl.
  - destruct (py_eq k' (JStr k)) eqn:E; dict_step; rewrite E; congruence.
Qed.

Lemma dict_delitem_setitem (k : string) (v : json) (d : dict) :
  dict_contains (JStr k) d = false ->
  dict_delitem (JStr k) (dict_setitem (JStr k) v d) = d.
Proof.
  induction d as [| [k' v'] t IH]; dict_step.
  - now rewrite py_eq_str_refl.
  - intros H. apply orb_false_iff in H as [E H].
    rewrite E. dict_step. rewrite E. f_equal. auto.
Qed.

Lemma dict_get_present (key : json) (d : dict) :
  is_not_None (dict_get key d) = true -> dict_contains key d = true.
Proof.
  intros H. destruct (dict_contains key d) eqn:E; auto.
  now rewrite (dict_get_absent key d E) in H.
Qed.

Section StoreProperties.

Variable upper : string -> string.

(** X1. A SET on the string key k changes the answer to GET and to
    EXISTS for no other key. *)
Theorem set_leaves_other_keys (set get exists_ k : string)
    (v x : json) (d : dict) :
  upper set = "SET" ->
  upper get = "GET" ->
  upper exists_ = "EXISTS" ->
  py_eq (JStr k) x = false ->
  let d' := snd (process upper (JList [JStr set; JStr k; v]) d) in
  fst (process upper (JList [JStr get; x]) d')
  = fst (process upper (JList [JStr get; x]) d) /\
  fst (process upper (JList [JStr exists_; x]) d')
  = fst (process upper (JList [JStr exists_; x]) d).
Proof.
  intros Hset Hget Hex Hx d'. unfold d', process, execute, dispatch.
  rewrite Hset, Hget, Hex. unfold_store. simpl.
  destruct (hashable x); simpl; [| auto].
  rewrite dict_get_setitem_other by exact Hx.
  rewrite dict_contains_setitem_other by exact Hx.
  now destruct (is_not_None (dict_get x d)).
Qed.

(** X2. The last SET on a key wins: two SETs on the string key k leave
    the store that the second alone leaves. *)
Theorem set_overwrites (set k : string) (v1 v2 : json) (d : dict) :
  upper set = "SET" ->
  snd (process upper (JList [JStr set; JStr k; v2])
         (snd (process upper (JList [JStr set; JStr k; v1]) d)))
  = snd (process upper (JList [JStr set; JStr k; v2]) d).
Proof.
  intros Hset. unfold process, execute, dispatch.
  rewrite Hset. unfold_store. simpl. apply dict_setitem_setitem.
Qed.

(** X3. SET then DEL on a string key that the store did not have gives
    the store back as it was, and DEL answers ["OK", 1]. *)
Theorem set_then_del_restores (set del k : string) (v : json) (d : dict) :
  upper set = "SET" ->
  upper del = "DEL" ->
  dict_contains (JStr k) d = false ->
  process upper (JList [JStr del; JStr k])
    (snd (process upper (JList [JStr set; JStr k; v]) d))
  = (Ok (OK_count 1), d).
Proof.
  intros Hset Hdel Habs. unfold process, execute, dispatch.
  rewrite Hset, Hdel. unfold_store. simpl.
  rewrite dict_contains_setitem by apply py_eq_str_refl.
  now rewrite dict_delitem_setitem.
Qed.

(** X4. A DEL on the string key k changes the answer to GET and to
    EXISTS for no other key. *)
Theorem del_leaves_other_keys (del get exists_ k : string)
    (x : json) (d : dict) :
  upper del = "DEL" ->
  upper get = "GET" ->
  upper exists_ = "EXISTS" ->
  py_eq (JStr k) x = false ->
  let d' := snd (process upper (JList [JStr del; JStr k]) d) in
  fst (process upper (JList [JStr get; x]) d')
  = fst (process upper (JList [JStr get; x]) d) /\
  fst (process upper (JList [JStr exists_; x]) d')
  = fst (process upper (JList [JStr exists_; x]) d).
Proof.
  intros Hdel Hget Hex Hx d'. unfold d', process, execute, dispatch.
  rewrite Hdel, Hget, Hex. unfold_store. simpl.
  destruct (hashable x); simpl; [| auto].
  destruct (dict_contains (JStr k) d); simpl; [| auto].
  rewrite dict_get_delitem_other by exact Hx.
  rewrite dict_contains_delitem_other by exact Hx.
  now destruct (is_not_None (dict_get x d)).
Qed.

(** X5. A key for which GET answers ["OK", v] is a key for which EXISTS
    answers ["OK", 1]. *)
Theorem get_ok_then_exists (get exists_ : string) (key v : json)
    (d d' : dict) :
  upper get = "GET" ->
  upper exists_ = "EXISTS" ->
  process upper (JList [JStr get; key]) d = (Ok (OK_value v), d') ->
  process upper (JList [JStr exists_; key]) d = (Ok (OK_count 1), d).
Proof.
  intros Hget Hex. unfold process, execute, dispatch.
  rewrite Hget, Hex. unfold_store. simpl.
  destruct (hashable key); simpl; [| discriminate].
  destruct (is_not_None (dict_get key d)) eqn:E; [| discriminate].
  intros _. now rewrite (dict_get_present key d E).
Qed.

(** X6. A key that is a list or an object makes SET, GET, DEL and EXISTS
    raise [TypeError], and the store is as it was. *)
Theorem unhashable_key (set get del exists_ : string) (key v : json)
    (d : dict) :
  upper set = "SET" ->
  upper get = "GET" ->
  upper del = "DEL" ->
  upper exists_ = "EXISTS" ->
  hashable key = false ->
  process upper (JList [JStr set; key; v]) d = (Raise TypeError, d) /\
  process upper (JList [JStr get; key]) d = (Raise TypeError, d) /\
  process upper (JList [JStr del; key]) d = (Raise TypeError, d) /\
  process upper (JList [JStr exists_; key]) d = (Raise TypeError, d).
Proof.
  intros Hset Hget Hdel Hex Hkey. unfold process, execute, dispatch.
  rewrite Hset, Hget, Hdel, Hex. unfold_store. simpl.
  rewrite Hkey. auto.
Qed.

End StoreProperties.

(** ** What the dispatch does to the store and what it answers *)


(** Splits the first test of an [if] of the goal. *)
Ltac split_goal_if :=
  match goal with
  | |- context [if ?b then _ else _] =>
      let E := fresh "E" in destruct b eqn:E
  end.

Section DispatchProperties.

Variable upper : string -> string.

(** X7. The store changes only through a SET or a DEL that is answered
    with the status "OK": a request that raises, a request that is
    answered "ERR" and every PING, GET and EXISTS leave it as it was. *)
Theorem store_changes_only_by_set_del (decoded : json) (d : dict) :
  snd (process upper decoded d) <> d ->
  exists (c : string) (args : list json) (response : json),
    decoded = JList (JStr c :: args) /\
    (upper c = "SET" \/ upper c = "DEL") /\
    fst (process upper decoded d) = Ok response /\
    status response = Some "OK".
Proof.
  unfold process.
  destruct decoded as [| | | | | [| x l] |]; simpl; try contradiction.
  destruct x; simpl; try contradiction.
  intros H. exists s, l. revert H.
  unfold dispatch. unfold_store.
  destruct (String.eqb (upper s) "PING"); simpl; [contradiction |].
  destruct (String.eqb_spec (upper s) "SET") as [Es | Es]; simpl.
  { destruct (List.length l =? 2)%nat; simpl.
    - destruct (hashable (nth 0 l JNull)); simpl; [| contradiction].
      intros _. exists OK_. auto.
    - repeat (split_goal_if; simpl); try contradiction;
        try (apply andb_true_iff in E as [E _];
             apply String.eqb_eq in E; rewrite E in *);
        intros _; eexists; repeat split; eauto. }
  destruct (String.eqb_spec (upper s) "GET") as [Eg | Eg]; simpl.
  { repeat (split_goal_if; simpl); try contradiction;
      rewrite Eg in *; try discriminate. }
  destruct (String.eqb_spec (upper s) "DEL") as [Ed | Ed]; simpl.
  { repeat (split_goal_if; simpl); try contradiction;
      try (rewrite Ed in *; discriminate).
    intros _. eexists. repeat split; eauto. }
  repeat (split_goal_if; simpl); contradiction.
Qed.


(** X9. Every response starts with the status token "OK" or "ERR". *)
Theorem response_status (decoded response : json) (d d' : dict) :
  process upper decoded d = (Ok response, d') ->
  status response = Some "OK" \/ status response = Some "ERR".
Proof.
  intros H. unfold process in H.
  destruct decoded as [| | | | | [| x l] |];
    try (inversion H; subst; now right).
  unfold execute in H. destruct x; try discriminate.
  unfold dispatch in H. unfold_store.
  repeat (split_if H; simpl in H);
    inversion H; subst; simpl; auto.
Qed.

End DispatchProperties.

(** * Further properties of the frame codec *)

Lemma Z_of_byte_range (b : byte) : 0 <= Z_of_byte b < 256.
Proof.
  unfold Z_of_byte. pose proof (Byte.to_N_bounded b). lia.
Qed.

Lemma byte_of_Z_of_byte (b : byte) (q : Z) :
  byte_of_Z (q * 256 + Z_of_byte b) = b.
Proof.
  pose proof (Z_of_byte_range b) as R.
  unfold byte_of_Z.
  replace ((q * 256 + Z_of_byte b) mod 256) with (Z_of_byte b).
  - unfold Z_of_byte. rewrite N2Z.id. now rewrite Byte.of_to_N.
  - symmetry. rewrite Z.add_comm, Z.mod_add by lia. now apply Z.mod_small.
Qed.

(** X10. What [struct_unpack_I] accepts is four bytes; their value is
    below 2^32, and [struct_pack_I] of it is the four bytes again. *)
Theorem struct_pack_unpack (header : list byte) (n : Z) :
  struct_unpack_I header = Ok n ->
  List.length header = 4%nat /\
  0 <= n < 2 ^ 32 /\
  struct_pack_I n = Ok header.
Proof.
  unfold struct_unpack_I.
  destruct header as [| b3 [| b2 [| b1 [| b0 [| b t]]]]]; try discriminate.
  intros H. injection H as <-.
  pose proof (Z_of_byte_range b3) as R3.
  pose proof (Z_of_byte_range b2) as R2.
  pose proof (Z_of_byte_range b1) as R1.
  pose proof (Z_of_byte_range b0) as R0.
  set (n := ((Z_of_byte b3 * 256 + Z_of_byte b2) * 256 + Z_of_byte b1) * 256
            + Z_of_byte b0).
  assert (B : 0 <= n < 2 ^ 32) by (unfold n; lia).
  split; [reflexivity |]. split; [exact B |].
  unfold struct_pack_I.
  destruct (Z.leb_spec 0 n); [| lia].
  destruct (Z.ltb_spec n (2 ^ 32)); [| lia].
  simpl andb. cbv iota. unfold big_endian_4.
  assert (D8 : n / 2 ^ 8
               = (Z_of_byte b3 * 256 + Z_of_byte b2) * 256 + Z_of_byte b1).
  { symmetry. apply (Z.div_unique n (2 ^ 8) _ (Z_of_byte b0)); unfold n; lia. }
  assert (D16 : n / 2 ^ 16 = Z_of_byte b3 * 256 + Z_of_byte b2).
  { symmetry.
    apply (Z.div_unique n (2 ^ 16) _ (Z_of_byte b1 * 256 + Z_of_byte b0));
      unfold n; lia. }
  assert (D24 : n / 2 ^ 24 = 0 * 256 + Z_of_byte b3).
  { symmetry.
    apply (Z.div_unique n (2 ^ 24) _
             ((Z_of_byte b2 * 256 + Z_of_byte b1) * 256 + Z_of_byte b0));
      unfold n; lia. }
  rewrite D8, D16, D24. unfold n.
  now rewrite !byte_of_Z_of_byte.
Qed.

(** ** read_fully on any connection *)

Lemma recv_spec (sock : socket) (bufsize : nat) :
  List.concat (incoming sock)
  = fst (recv sock bufsize) ++ List.concat (incoming (snd (recv sock bufsize)))
  /\ outgoing (snd (recv sock bufsize)) = outgoing sock.
Proof.
  unfold recv. destruct sock as [[| p ps] out]; simpl; [auto |].
  split; [| reflexivity].
  rewrite <- (firstn_skipn bufsize p) at 1.
  rewrite <- app_assoc. f_equal.
  now destruct (skipn bufsize p).
Qed.

Lemma read_fully_loop_exact (fuel : nat) :
  forall (sock sock' : socket) (data out : list byte) (length : nat),
  (List.length data <= length)%nat ->
  read_fully_loop fuel sock data length = Some (Some out, sock') ->
  exists bs : list byte,
    out = data ++ bs /\
    List.length out = length /\
    List.concat (incoming sock) = bs ++ List.concat (incoming sock') /\
    outgoing sock' = outgoing sock.
Proof.
  induction fuel as [| fuel IH]; intros sock sock' data out length L; simpl.
  - destruct (Nat.ltb_spec (List.length data) length) as [Lt | Ge];
      [discriminate |].
    intros H. injection H as <- <-. exists []. rewrite app_nil_r.
    repeat split; auto. lia.
  - destruct (Nat.ltb_spec (List.length data) length) as [Lt | Ge].
    + pose proof (recv_spec sock (length - List.length data)) as [Hcat Hout].
      assert (Hlen : (List.length (fst (recv sock (length - List.length data)))
                      <= length - List.length data)%nat).
      { unfold recv. destruct (incoming sock); simpl; [lia |].
        rewrite length_firstn. lia. }
      destruct (recv sock (length - List.length data)) as [packet sock1].
      simpl in Hcat, Hout, Hlen.
      destruct packet as [| b packet]; [discriminate |].
      intros H. apply IH in H.
      2:{ rewrite length_app. simpl in *. lia. }
      destruct H as (bs & -> & Hl & Hc & Ho).
      exists ((b :: packet) ++ bs). rewrite app_assoc.
      repeat split; auto.
      * rewrite Hcat, Hc. now rewrite app_assoc.
      * congruence.
    + intros H. injection H as <- <-. exists []. rewrite app_nil_r.
      repeat split; auto. lia.
Qed.

(** X11. What [read_fully] returns, when it is not [None], is exactly
    [length] bytes: the next bytes of the stream, whatever the packets
    they came in, and the stream goes on after them. *)
Theorem read_fully_exact (sock sock' : socket) (data : list byte)
    (length : nat) :
  read_fully sock length = Some (Some data, sock') ->
  List.length data = length /\
  List.concat (incoming sock) = data ++ List.concat (incoming sock') /\
  outgoing sock' = outgoing sock.
Proof.
  intros H. apply read_fully_loop_exact in H; [| simpl; lia].
  destruct H as (bs & -> & Hl & Hc & Ho). simpl in *. auto.
Qed.

Lemma read_fully_loop_eof (fuel : nat) :
  forall (sock : socket) (data : list byte) (length : nat),
  no_empty_packet (incoming sock) = true ->
  (List.length data + List.length (List.concat (incoming sock)) < length)%nat ->
  (List.length (List.concat (incoming sock)) < fuel)%nat ->
  read_fully_loop fuel sock data length
  = Some (None, Socket [] (outgoing sock)).
Proof.
  induction fuel as [| fuel IH]; intros sock data length Hne Hshort Hfuel;
    [lia |].
  simpl.
  destruct (Nat.ltb_spec (List.length data) length) as [Lt | Ge]; [| lia].
  unfold recv. destruct sock as [inc out]. simpl in *.
  destruct inc as [| p ps]; [reflexivity |].
  simpl in Hne, Hshort, Hfuel. rewrite length_app in Hshort, Hfuel.
  destruct p as [| b p]; [discriminate |].
  rewrite firstn_all2 by (simpl in *; lia).
  rewrite skipn_all2 by (simpl in *; lia).
  cbv zeta iota.
  rewrite IH; simpl; auto.
  - rewrite length_app. simpl in *. lia.
  - simpl in *. lia.
Qed.

Lemma read_fully_short (sock : socket) (length : nat) :
  no_empty_packet (incoming sock) = true ->
  (List.length (List.concat (incoming sock)) < length)%nat ->
  read_fully sock length = Some (None, Socket [] (outgoing sock)).
Proof.
  intros Hne Hshort. apply read_fully_loop_eof; simpl; auto.
Qed.

(** X12. When the peer closes before [length] bytes have come,
    [read_fully] returns [None]; the bytes that had come are read and
    given up. *)
Theorem read_fully_eof (sock : socket) (length : nat) :
  no_empty_packet (incoming sock) = true ->
  (List.length (List.concat (incoming sock)) < length)%nat ->
  read_fully sock length = Some (None, Socket [] (outgoing sock)).
Proof.
  intros Hne Hshort. apply read_fully_loop_eof; simpl; auto.
Qed.

(** * Further properties of the loop of handle_client *)

Lemma framable_spec (payload : list byte) :
  framable payload = true ->
  payload <> [] /\ Z.of_nat (List.length payload) < 2 ^ 32.
Proof.
  destruct payload as [| b payload]; [discriminate |].
  unfold framable. intros H. apply Z.ltb_lt in H. split; [discriminate | lia].
Qed.

Section LoopProperties.

Variable upper : string -> string.
Variable json_loads : list byte -> option json.
Variable json_dumps : json -> list byte.

(** One turn on a whole frame: the frame is read, whatever the packets
    it comes in, and the turn ends as the payload decides. *)
Lemma handle_iteration_frame (sock : socket) (d : dict)
    (payload rest : list byte) :
  framable payload = true ->
  no_empty_packet (incoming sock) = true ->
  List.concat (incoming sock) = frame payload ++ rest ->
  exists sock2 : socket,
    no_empty_packet (incoming sock2) = true /\
    List.concat (incoming sock2) = rest /\
    outgoing sock2 = outgoing sock /\
    handle_iteration upper json_loads json_dumps sock d
    = match handle_payload upper json_loads payload d with
      | (Ok response, d') => respond json_dumps sock2 d' response
      | (Raise e, d') => Crash e sock2 d'
      end.
Proof.
  intros Hf Hne Hcat. apply framable_spec in Hf as [Hp B].
  unfold frame in Hcat. rewrite <- app_assoc in Hcat.
  destruct (read_fully_spec sock _ _ Hne Hcat)
    as (sock1 & R1 & Hne1 & Hcat1 & Hout1).
  destruct (read_fully_spec sock1 payload rest Hne1 Hcat1)
    as (sock2 & R2 & Hne2 & Hcat2 & Hout2).
  exists sock2. repeat split; auto; [congruence |].
  unfold handle_iteration.
  change (List.length (big_endian_4 (Z.of_nat (List.length payload))))
    with 4%nat in R1.
  rewrite R1.
  change (falsy (Some (big_endian_4 (Z.of_nat (List.length payload)))))
    with false.
  cbv iota.
  rewrite struct_unpack_pack by lia.
  rewrite Nat2Z.id, R2.
  destruct payload as [| b payload]; [contradiction | reflexivity].
Qed.

Lemma process_raise_leaves_store (decoded : json) (e : exn) (d d' : dict) :
  process upper decoded d = (Raise e, d') -> d' = d.
Proof.
  intros H. unfold process in H.
  destruct decoded as [| | | | | [| x l] |]; try discriminate.
  unfold execute in H. destruct x; try (now inversion H).
  unfold dispatch in H. unfold_store.
  repeat (split_if H; simpl in H); inversion H; subst; reflexivity.
Qed.

(** X13. A request that [handle_payload] answers gets exactly its
    response, framed, appended to what has been sent; the store is the
    one [handle_payload] leaves and the loop goes on with what follows
    the frame. *)
Theorem request_answered (sock : socket) (d d' : dict)
    (payload rest message : list byte) (response : json) :
  framable payload = true ->
  no_empty_packet (incoming sock) = true ->
  List.concat (incoming sock) = frame payload ++ rest ->
  handle_payload upper json_loads payload d = (Ok response, d') ->
  pack_message json_dumps response = Ok message ->
  exists sock' : socket,
    handle_iteration upper json_loads json_dumps sock d = Continue sock' d' /\
    outgoing sock' = outgoing sock ++ message /\
    List.concat (incoming sock') = rest.
Proof.
  intros Hf Hne Hcat Hans Hmsg.
  destruct (handle_iteration_frame sock d payload rest Hf Hne Hcat)
    as (sock2 & _ & Hcat2 & Hout2 & Hturn).
  rewrite Hans in Hturn. unfold respond in Hturn. rewrite Hmsg in Hturn.
  exists (sendall sock2 message). simpl. split; [exact Hturn |].
  split; congruence.
Qed.

(** X14. A request on which the dispatch raises ends the loop with that
    exception: no response is sent and the store is as it was. *)
Theorem request_raises (sock : socket) (d d' : dict)
    (payload rest : list byte) (e : exn) :
  framable payload = true ->
  no_empty_packet (incoming sock) = true ->
  List.concat (incoming sock) = frame payload ++ rest ->
  handle_payload upper json_loads payload d = (Raise e, d') ->
  exists sock' : socket,
    handle_iteration upper json_loads json_dumps sock d = Crash e sock' d /\
    outgoing sock' = outgoing sock /\
    (forall fuel : nat,
       handle_client upper json_loads json_dumps (S fuel) sock d
       = Some (Closed (Some e) sock' d)).
Proof.
  intros Hf Hne Hcat Hans.
  destruct (handle_iteration_frame sock d payload rest Hf Hne Hcat)
    as (sock2 & _ & Hcat2 & Hout2 & Hturn).
  rewrite Hans in Hturn.
  assert (d' = d) as ->.
  { unfold handle_payload in Hans.
    destruct (json_loads payload); [| discriminate].
    exact (process_raise_leaves_store _ _ _ _ Hans). }
  exists sock2. repeat split; auto.
  intros fuel. simpl. now rewrite Hturn.
Qed.

Lemma handle_iteration_eof (sock : socket) (d : dict) :
  no_empty_packet (incoming sock) = true ->
  (List.length (List.concat (incoming sock)) < 4)%nat ->
  handle_iteration upper json_loads json_dumps sock d
  = Break (Socket [] (outgoing sock)) d.
Proof.
  intros Hne Hshort. unfold handle_iteration.
  now rewrite (read_fully_short sock 4 Hne Hshort).
Qed.

(** X15. When the peer closes with no byte of a header, or with fewer
    than four, the loop ends: nothing is sent and the store is as it
    was. *)
Theorem eof_in_header (sock : socket) (d : dict) (fuel : nat) :
  no_empty_packet (incoming sock) = true ->
  (List.length (List.concat (incoming sock)) < 4)%nat ->
  handle_iteration upper json_loads json_dumps sock d = Break (Socket [] (outgoing sock)) d /\
  handle_client upper json_loads json_dumps (S fuel) sock d
  = Some (Closed None (Socket [] (outgoing sock)) d).
Proof.
  intros Hne Hshort.
  pose proof (handle_iteration_eof sock d Hne Hshort) as H.
  split; [exact H |]. simpl. now rewrite H.
Qed.

(** X16. When the peer closes after a header and before the whole of
    the payload it announces, the loop ends: nothing is sent, the
    store is as it was, and the part of the payload that had come is
    given up. *)
Theorem eof_in_payload (sock : socket) (d : dict) (n : Z)
    (part : list byte) (fuel : nat) :
  0 <= n < 2 ^ 32 ->
  (List.length part < Z.to_nat n)%nat ->
  no_empty_packet (incoming sock) = true ->
  List.concat (incoming sock) = big_endian_4 n ++ part ->
  handle_iteration upper json_loads json_dumps sock d = Break (Socket [] (outgoing sock)) d /\
  handle_client upper json_loads json_dumps (S fuel) sock d
  = Some (Closed None (Socket [] (outgoing sock)) d).
Proof.
  intros B Hshort Hne Hcat.
  assert (H : handle_iteration upper json_loads json_dumps sock d
              = Break (Socket [] (outgoing sock)) d).
  { destruct (read_fully_spec sock _ _ Hne Hcat)
      as (sock1 & R1 & Hne1 & Hcat1 & Hout1).
    unfold handle_iteration.
    change (List.length (big_endian_4 n)) with 4%nat in R1.
    rewrite R1.
    change (falsy (Some (big_endian_4 n))) with false. cbv iota.
    rewrite struct_unpack_pack by exact B.
    rewrite (read_fully_short sock1 (Z.to_nat n) Hne1)
      by (rewrite Hcat1; exact Hshort).
    simpl. now rewrite Hout1. }
  split; [exact H |]. simpl. now rewrite H.
Qed.

Lemma handle_iteration_finishes (sock : socket) (d : dict) :
  handle_iteration upper json_loads json_dumps sock d <> Unfinished.
Proof.
  unfold handle_iteration.
  pose proof (read_fully_total sock 4) as T1.
  destruct (read_fully sock 4) as [[header sock1] |]; [| contradiction].
  destruct (falsy header); [discriminate |].
  destruct (struct_unpack_I _) as [payload_length | e]; [| discriminate].
  pose proof (read_fully_total sock1 (Z.to_nat payload_length)) as T2.
  destruct (read_fully sock1 _) as [[payload sock2] |]; [| contradiction].
  destruct (falsy payload); [discriminate |].
  destruct (handle_payload _ _ _ _) as [[response | e] d']; [| discriminate].
  unfold respond. now destruct (pack_message _ _).
Qed.

(** A turn after which the loop goes on has read a header at least and
    has added to what was sent. *)
Lemma handle_iteration_consumes (sock sock' : socket) (d d' : dict) :
  handle_iteration upper json_loads json_dumps sock d = Continue sock' d' ->
  (List.length (List.concat (incoming sock')) + 4
   <= List.length (List.concat (incoming sock)))%nat /\
  exists message : list byte, outgoing sock' = outgoing sock ++ message.
Proof.
  unfold handle_iteration.
  destruct (read_fully sock 4) as [[header sock1] |] eqn:R1; [| discriminate].
  destruct header as [header |]; [| discriminate].
  apply read_fully_loop_exact in R1; [| simpl; lia].
  destruct R1 as (bs & -> & L1 & C1 & O1). cbn [app] in *.
  destruct (falsy (Some bs)); [discriminate |].
  destruct (struct_unpack_I _) as [payload_length | e]; [| discriminate].
  destruct (read_fully sock1 _) as [[payload sock2] |] eqn:R2;
    [| discriminate].
  destruct payload as [payload |]; [| discriminate].
  apply read_fully_loop_exact in R2; [| simpl; lia].
  destruct R2 as (bs2 & -> & L2 & C2 & O2). cbn [app] in *.
  destruct (falsy _); [discriminate |].
  destruct (handle_payload _ _ _ _) as [[response | e] d1]; [| discriminate].
  unfold respond. destruct (pack_message _ _) as [message | e];
    [| discriminate].
  intros H. injection H as <- <-. simpl. split.
  - rewrite C1, C2, !length_app. lia.
  - exists message. congruence.
Qed.

Lemma handle_client_terminates_within (n : nat) :
  forall (sock : socket) (d : dict),
  (List.length (List.concat (incoming sock)) <= n)%nat ->
  exists (e : option exn) (sock' : socket) (d' : dict),
    handle_client upper json_loads json_dumps (S n) sock d
    = Some (Closed e sock' d').
Proof.
  induction n as [| n IH]; intros sock d L; cbn [handle_client].
  - pose proof (handle_iteration_finishes sock d) as F.
    destruct (handle_iteration upper json_loads json_dumps sock d)
      as [sock' d' | sock' d' | e sock' d' |] eqn:T; eauto;
      [| contradiction].
    apply handle_iteration_consumes in T as [T _]. lia.
  - pose proof (handle_iteration_finishes sock d) as F.
    destruct (handle_iteration upper json_loads json_dumps sock d)
      as [sock' d' | sock' d' | e sock' d' |] eqn:T; eauto;
      [| contradiction].
    apply handle_iteration_consumes in T as [T _].
    apply IH. lia.
Qed.

(** X17. On every finite stream the loop of [handle_client] ends, by a
    [break] or by an exception: a number of turns that is the number of
    bytes of the stream, and one more, is enough. *)
Theorem handle_client_terminates (sock : socket) (d : dict) :
  exists (e : option exn) (sock' : socket) (d' : dict),
    handle_client upper json_loads json_dumps
      (S (List.length (List.concat (incoming sock)))) sock d
    = Some (Closed e sock' d').
Proof. apply handle_client_terminates_within. lia. Qed.

(** X18. A session of requests that are all answered: the frames of the
    payloads come one after the other, in whatever packets, then the
    peer closes.  The responses are sent one for each request, in the
    order of the requests, the store ends as the requests leave it in
    that order, and the loop ends by the [break] of the closed stream. *)
Theorem session_replies (payloads : list (list byte)) :
  forall (sock : socket) (d d' : dict) (sent : list byte),
  forallb framable payloads = true ->
  no_empty_packet (incoming sock) = true ->
  List.concat (incoming sock) = List.concat (map frame payloads) ->
  replies upper json_loads json_dumps payloads d = Some (sent, d') ->
  handle_client upper json_loads json_dumps (S (List.length payloads)) sock d
  = Some (Closed None (Socket [] (outgoing sock ++ sent)) d').
Proof.
  induction payloads as [| payload later IH];
    intros sock d d' sent Hf Hne Hcat Hrep.
  - simpl in Hrep, Hcat. injection Hrep as <- <-.
    cbn [handle_client List.length].
    rewrite handle_iteration_eof by (rewrite ?Hcat; simpl; auto; lia).
    now rewrite app_nil_r.
  - cbn [forallb] in Hf. apply andb_true_iff in Hf as [Hp Hl].
    cbn [map List.concat] in Hcat.
    destruct (handle_iteration_frame sock d payload _ Hp Hne Hcat)
      as (sock2 & Hne2 & Hcat2 & Hout2 & Hturn).
    cbn [replies] in Hrep.
    destruct (handle_payload upper json_loads payload d)
      as [[response | e] d1]; [| discriminate].
    destruct (pack_message json_dumps response) as [message | e] eqn:Hm;
      [| discriminate].
    destruct (replies upper json_loads json_dumps later d1)
      as [[sent' d''] |] eqn:Hlater; [| discriminate].
    injection Hrep as <- <-.
    change (handle_client upper json_loads json_dumps
              (S (List.length (payload :: later))) sock d)
      with (match handle_iteration upper json_loads json_dumps sock d with
            | Continue sock' d' =>
                handle_client upper json_loads json_dumps
                  (S (List.length later)) sock' d'
            | Break sock' d' => Some (Closed None sock' d')
            | Crash e sock' d' => Some (Closed (Some e) sock' d')
            | Unfinished => None
            end).
    rewrite Hturn. unfold respond. rewrite Hm.
    rewrite (IH (sendall sock2 message) d1 d'' sent' Hl Hne2 Hcat2 Hlater).
    simpl. now rewrite Hout2, app_assoc.
Qed.

End LoopProperties.

(** * Properties of the client *)

(** The client's [_read_fully] is the server's [read_fully], with the
    exception in the place of [None]. *)
Lemma _read_fully_loop_as_server (fuel : nat) :
  forall (sock : socket) (data : list byte) (length : nat),
  _read_fully_loop fuel sock data length
  = match read_fully_loop fuel sock data length with
    | None => None
    | Some (Some bytes, sock') => Some (Returns bytes, sock')
    | Some (None, sock') =>
        Some (Raises (ConnectionError "Socket connection broken"), sock')
    end.
Proof.
  induction fuel as [| fuel IH]; intros sock data length; simpl.
  - now destruct (List.length data <? length)%nat.
  - destruct (List.length data <? length)%nat; [| reflexivity].
    destruct (recv sock (length - List.length data)) as [packet sock'].
    destruct packet; [reflexivity | apply IH].
Qed.

Lemma _read_fully_spec (sock : socket) (bs rest : list byte) :
  no_empty_packet (incoming sock) = true ->
  List.concat (incoming sock) = bs ++ rest ->
  exists sock',
    _read_fully sock (List.length bs) = Some (Returns bs, sock') /\
    no_empty_packet (incoming sock') = true /\
    List.concat (incoming sock') = rest /\
    outgoing sock' = outgoing sock.
Proof.
  intros Hne Hcat.
  destruct (read_fully_spec sock bs rest Hne Hcat) as (sock' & R & H).
  exists sock'. split; [| exact H].
  unfold _read_fully. rewrite _read_fully_loop_as_server.
  unfold read_fully in R. now rewrite R.
Qed.

Lemma _read_fully_short (sock : socket) (length : nat) :
  no_empty_packet (incoming sock) = true ->
  (List.length (List.concat (incoming sock)) < length)%nat ->
  _read_fully sock length
  = Some (Raises (ConnectionError "Socket connection broken"),
          Socket [] (outgoing sock)).
Proof.
  intros Hne Hshort.
  unfold _read_fully. rewrite _read_fully_loop_as_server.
  pose proof (read_fully_short sock length Hne Hshort) as R.
  unfold read_fully in R. now rewrite R.
Qed.

Section ClientProperties.

Variable upper : string -> string.
Variable json_loads : list byte -> option json.
Variable json_dumps : json -> list byte.

Lemma _pack_message_frame (data : json) :
  Z.of_nat (List.length (json_dumps data)) < 2 ^ 32 ->
  _pack_message json_dumps data = Returns (frame (json_dumps data)).
Proof.
  intros B. unfold _pack_message, struct_pack_I, frame.
  destruct (Z.leb_spec 0 (Z.of_nat (List.length (json_dumps data))));
    [| lia].
  destruct (Z.ltb_spec (Z.of_nat (List.length (json_dumps data))) (2 ^ 32));
    [reflexivity | lia].
Qed.

(** The request is sent and the frame of the response is read: the
    result is what the payload decodes to. *)
Lemma _send_request_frame (self : SSMPClient) (sock : socket)
    (command_list : json) (payload rest : list byte) :
  _socket self = Some sock ->
  Z.of_nat (List.length (json_dumps command_list)) < 2 ^ 32 ->
  Z.of_nat (List.length payload) < 2 ^ 32 ->
  no_empty_packet (incoming sock) = true ->
  List.concat (incoming sock) = frame payload ++ rest ->
  exists sock' : socket,
    _send_request json_loads json_dumps self command_list
    = Some (match json_loads payload with
            | Some response => Returns response
            | None => Raises ValueError
            end, with_socket self (Some sock')) /\
    outgoing sock' = outgoing sock ++ frame (json_dumps command_list) /\
    List.concat (incoming sock') = rest.
Proof.
  intros Hsock Bc Bp Hne Hcat.
  unfold _send_request. rewrite Hsock, (_pack_message_frame _ Bc).
  set (sock0 := sendall sock (frame (json_dumps command_list))).
  unfold frame in Hcat. rewrite <- app_assoc in Hcat.
  destruct (_read_fully_spec sock0 _ _ Hne Hcat)
    as (sock1 & R1 & Hne1 & Hcat1 & Hout1).
  destruct (_read_fully_spec sock1 payload rest Hne1 Hcat1)
    as (sock2 & R2 & _ & Hcat2 & Hout2).
  change (List.length (big_endian_4 (Z.of_nat (List.length payload))))
    with 4%nat in R1.
  rewrite R1. rewrite struct_unpack_pack by lia.
  rewrite Nat2Z.id, R2.
  exists sock2. split; [now destruct (json_loads payload) |].
  split; [| exact Hcat2]. rewrite Hout2, Hout1. reflexivity.
Qed.

(** X19. A client that has been closed has no socket, closing it again
    changes nothing, and a request on it raises [ConnectionError] with
    nothing sent. *)
Theorem request_after_close (self : SSMPClient) (command_list : json) :
  _socket (close self) = None /\
  close (close self) = close self /\
  _send_request json_loads json_dumps (close self) command_list
  = Some (Raises (ConnectionError
                    "Client not connected. Call connect() first."),
          close self).
Proof.
  unfold close, _send_request. destruct self as [h p [sock |]]; simpl; auto.
Qed.

(** X20. [_send_request] sends the frame of the request and returns what
    the payload of the next frame it receives decodes to, whatever the
    packets the frame comes in; a payload that does not decode, the
    empty one for instance, raises the [ValueError] of the decoder. *)
Theorem send_request_returns (self : SSMPClient) (sock : socket)
    (command_list : json) (payload rest : list byte) :
  _socket self = Some sock ->
  Z.of_nat (List.length (json_dumps command_list)) < 2 ^ 32 ->
  Z.of_nat (List.length payload) < 2 ^ 32 ->
  no_empty_packet (incoming sock) = true ->
  List.concat (incoming sock) = frame payload ++ rest ->
  exists sock' : socket,
    _send_request json_loads json_dumps self command_list
    = Some (match json_loads payload with
            | Some response => Returns response
            | None => Raises ValueError
            end, with_socket self (Some sock')) /\
    outgoing sock' = outgoing sock ++ frame (json_dumps command_list) /\
    List.concat (incoming sock') = rest.
Proof. apply _send_request_frame. Qed.

(** X21. When the server closes before four bytes of a response have
    come, [_send_request] raises [ConnectionError]; the request has been
    sent. *)
Theorem send_request_broken (self : SSMPClient) (sock : socket)
    (command_list : json) :
  _socket self = Some sock ->
  Z.of_nat (List.length (json_dumps command_list)) < 2 ^ 32 ->
  no_empty_packet (incoming sock) = true ->
  (List.length (List.concat (incoming sock)) < 4)%nat ->
  _send_request json_loads json_dumps self command_list
  = Some (Raises (ConnectionError "Socket connection broken"),
          with_socket self
            (Some (Socket [] (outgoing sock
                              ++ frame (json_dumps command_list))))).
Proof.
  intros Hsock Bc Hne Hshort.
  unfold _send_request. rewrite Hsock, (_pack_message_frame _ Bc).
  now rewrite (_read_fully_short
                 (sendall sock (frame (json_dumps command_list))) 4
                 Hne Hshort).
Qed.

(** X22. A request through the wire.  When the decoder gives back the
    request and the response that the encoder wrote, the server, on the
    frame that the client sends, sends the frame of the response of
    [process] and goes on with the store of [process], and the client,
    on that frame, returns that response. *)
Theorem request_round_trip (self : SSMPClient) (client_sock server_sock : socket)
    (command_list response : json) (d d' : dict) :
  json_loads (json_dumps command_list) = Some command_list ->
  json_loads (json_dumps response) = Some response ->
  framable (json_dumps command_list) = true ->
  Z.of_nat (List.length (json_dumps response)) < 2 ^ 32 ->
  process upper command_list d = (Ok response, d') ->
  no_empty_packet (incoming server_sock) = true ->
  List.concat (incoming server_sock) = frame (json_dumps command_list) ->
  _socket self = Some client_sock ->
  no_empty_packet (incoming client_sock) = true ->
  List.concat (incoming client_sock) = frame (json_dumps response) ->
  exists client_sock' server_sock' : socket,
    handle_iteration upper json_loads json_dumps server_sock d
    = Continue server_sock' d' /\
    outgoing server_sock'
    = outgoing server_sock ++ frame (json_dumps response) /\
    _send_request json_loads json_dumps self command_list
    = Some (Returns response, with_socket self (Some client_sock')) /\
    outgoing client_sock'
    = outgoing client_sock ++ frame (json_dumps command_list).
Proof.
  intros Lc Lr Fc Br Hp Hns Hcs Hsock Hnc Hcc.
  pose proof (framable_spec _ Fc) as [_ Bc].
  rewrite <- (app_nil_r (frame (json_dumps command_list))) in Hcs.
  rewrite <- (app_nil_r (frame (json_dumps response))) in Hcc.
  destruct (handle_iteration_frame upper json_loads json_dumps
              server_sock d _ _ Fc Hns Hcs)
    as (sock2 & _ & _ & Hout2 & Hturn).
  destruct (_send_request_frame self client_sock command_list _ _
              Hsock Bc Br Hnc Hcc)
    as (client_sock' & Hreq & Hout & _).
  unfold handle_payload in Hturn. rewrite Lc, Hp in Hturn.
  unfold respond in Hturn. rewrite (pack_message_ok _ _ Br) in Hturn.
  rewrite Lr in Hreq.
  exists client_sock', (sendall sock2 (frame (json_dumps response))).
  repeat split; auto. simpl. now rewrite Hout2.
Qed.

End ClientProperties.

(** * The further properties on examples *)

Lemma set_leaves_other_keys_witness :
  ascii_upper "set" = "SET" /\
  ascii_upper "get" = "GET" /\
  ascii_upper "exists" = "EXISTS" /\
  py_eq (JStr "a") (JStr "b") = false /\
  fst (process ascii_upper (JList [JStr "get"; JStr "b"])
         (snd (process ascii_upper (JList [JStr "set"; JStr "a"; JInt 1])
                 [(JStr "b", JStr "2")])))
  = fst (process ascii_upper (JList [JStr "get"; JStr "b"])
           [(JStr "b", JStr "2")]) /\
  fst (process ascii_upper (JList [JStr "exists"; JStr "b"])
         (snd (process ascii_upper (JList [JStr "set"; JStr "a"; JInt 1])
                 [(JStr "b", JStr "2")])))
  = fst (process ascii_upper (JList [JStr "exists"; JStr "b"])
           [(JStr "b", JStr "2")]).
Proof.
  split; [reflexivity |]. split; [reflexivity |]. split; [reflexivity |].
  split; [reflexivity |].
  apply (set_leaves_other_keys ascii_upper "set" "get" "exists" "a"
           (JInt 1) (JStr "b") [(JStr "b", JStr "2")]); reflexivity.
Defined.

Lemma set_overwrites_witness :
  ascii_upper "set" = "SET" /\
  snd (process ascii_upper (JList [JStr "set"; JStr "a"; JStr "2"])
         (snd (process ascii_upper (JList [JStr "set"; JStr "a"; JStr "1"])
                 [(JStr "b", JStr "0")])))
  = snd (process ascii_upper (JList [JStr "set"; JStr "a"; JStr "2"])
           [(JStr "b", JStr "0")]).
Proof.
  split; [reflexivity |].
  apply (set_overwrites ascii_upper "set" "a" (JStr "1") (JStr "2")
           [(JStr "b", JStr "0")]); reflexivity.
Defined.

Lemma set_then_del_restores_witness :
  ascii_upper "set" = "SET" /\
  ascii_upper "del" = "DEL" /\
  dict_contains (JStr "a") [(JStr "b", JStr "0")] = false /\
  process ascii_upper (JList [JStr "del"; JStr "a"])
    (snd (process ascii_upper (JList [JStr "set"; JStr "a"; JNull])
            [(JStr "b", JStr "0")]))
  = (Ok (OK_count 1), [(JStr "b", JStr "0")]).
Proof.
  split; [reflexivity |]. split; [reflexivity |]. split; [reflexivity |].
  apply (set_then_del_restores ascii_upper "set" "del" "a" JNull
           [(JStr "b", JStr "0")]); reflexivity.
Defined.

Lemma del_leaves_other_keys_witness :
  ascii_upper "del" = "DEL" /\
  ascii_upper "get" = "GET" /\
  ascii_upper "exists" = "EXISTS" /\
  py_eq (JStr "a") (JInt 1) = false /\
  fst (process ascii_upper (JList [JStr "get"; JInt 1])
         (snd (process ascii_upper (JList [JStr "del"; JStr "a"])
                 [(JStr "a", JStr "0"); (JBool true, JStr "yes")])))
  = fst (process ascii_upper (JList [JStr "get"; JInt 1])
           [(JStr "a", JStr "0"); (JBool true, JStr "yes")]) /\
  fst (process ascii_upper (JList [JStr "exists"; JInt 1])
         (snd (process ascii_upper (JList [JStr "del"; JStr "a"])
                 [(JStr "a", JStr "0"); (JBool true, JStr "yes")])))
  = fst (process ascii_upper (JList [JStr "exists"; JInt 1])
           [(JStr "a", JStr "0"); (JBool true, JStr "yes")]).
Proof.
  split; [reflexivity |]. split; [reflexivity |]. split; [reflexivity |].
  split; [reflexivity |].
  apply (del_leaves_other_keys ascii_upper "del" "get" "exists" "a"
           (JInt 1) [(JStr "a", JStr "0"); (JBool true, JStr "yes")]);
    reflexivity.
Defined.

Lemma get_ok_then_exists_witness :
  ascii_upper "get" = "GET" /\
  ascii_upper "exists" = "EXISTS" /\
  process ascii_upper (JList [JStr "get"; JInt 1]) [(JBool true, JStr "yes")]
  = (Ok (OK_value (JStr "yes")), [(JBool true, JStr "yes")]) /\
  process ascii_upper (JList [JStr "exists"; JInt 1])
    [(JBool true, JStr "yes")]
  = (Ok (OK_count 1), [(JBool true, JStr "yes")]).
Proof.
  split; [reflexivity |]. split; [reflexivity |]. split; [reflexivity |].
  apply (get_ok_then_exists ascii_upper "get" "exists" (JInt 1) (JStr "yes")
           [(JBool true, JStr "yes")] [(JBool true, JStr "yes")]);
    reflexivity.
Defined.

Lemma unhashable_key_witness :
  ascii_upper "set" = "SET" /\
  ascii_upper "get" = "GET" /\
  ascii_upper "del" = "DEL" /\
  ascii_upper "exists" = "EXISTS" /\
  hashable (JList [JStr "k"]) = false /\
  process ascii_upper (JList [JStr "set"; JList [JStr "k"]; JStr "v"]) []
  = (Raise TypeError, []) /\
  process ascii_upper (JList [JStr "get"; JList [JStr "k"]]) []
  = (Raise TypeError, []) /\
  process ascii_upper (JList [JStr "del"; JList [JStr "k"]]) []
  = (Raise TypeError, []) /\
  process ascii_upper (JList [JStr "exists"; JList [JStr "k"]]) []
  = (Raise TypeError, []).
Proof.
  split; [reflexivity |]. split; [reflexivity |]. split; [reflexivity |].
  split; [reflexivity |]. split; [reflexivity |].
  apply (unhashable_key ascii_upper "set" "get" "del" "exists"
           (JList [JStr "k"]) (JStr "v") []); reflexivity.
Defined.

Lemma store_changes_only_by_set_del_witness :
  snd (process ascii_upper (JList [JStr "del"; JStr "a"]) [(JStr "a", JNull)])
  <> [(JStr "a", JNull)] /\
  exists (c : string) (args : list json) (response : json),
    JList [JStr "del"; JStr "a"] = JList (JStr c :: args) /\
    (ascii_upper c = "SET" \/ ascii_upper c = "DEL") /\
    fst (process ascii_upper (JList [JStr "del"; JStr "a"])
           [(JStr "a", JNull)]) = Ok response /\
    status response = Some "OK".
Proof.
  split; [discriminate |].
  apply (store_changes_only_by_set_del ascii_upper
           (JList [JStr "del"; JStr "a"]) [(JStr "a", JNull)]).
  discriminate.
Defined.


Lemma response_status_witness :
  process ascii_upper (JList [JStr "get"; JStr "a"]) [(JStr "a", JInt 7)]
  = (Ok (OK_value (JInt 7)), [(JStr "a", JInt 7)]) /\
  (status (OK_value (JInt 7)) = Some "OK" \/
   status (OK_value (JInt 7)) = Some "ERR").
Proof.
  split; [reflexivity |].
  apply (response_status ascii_upper (JList [JStr "get"; JStr "a"])
           (OK_value (JInt 7)) [(JStr "a", JInt 7)] [(JStr "a", JInt 7)]);
    reflexivity.
Defined.

Lemma struct_pack_unpack_witness :
  struct_unpack_I [xff; xff; xff; xff] = Ok 4294967295 /\
  List.length [xff; xff; xff; xff] = 4%nat /\
  0 <= 4294967295 < 2 ^ 32 /\
  struct_pack_I 4294967295 = Ok [xff; xff; xff; xff].
Proof.
  split; [reflexivity |].
  apply (struct_pack_unpack [xff; xff; xff; xff] 4294967295); reflexivity.
Defined.

Lemma read_fully_exact_witness :
  read_fully pong_socket 4
  = Some (Some [x00; x00; x00; x0e],
          Socket [[x5b; x22; x4f];
                  [x4b; x22; x2c; x20; x22; x50; x4f; x4e; x47; x22; x5d;
                   x00]] []) /\
  List.length [x00; x00; x00; x0e] = 4%nat /\
  List.concat (incoming pong_socket)
  = [x00; x00; x00; x0e]
    ++ List.concat [[x5b; x22; x4f];
                    [x4b; x22; x2c; x20; x22; x50; x4f; x4e; x47; x22; x5d;
                     x00]] /\
  @nil byte = outgoing pong_socket.
Proof.
  split; [reflexivity |].
  apply (read_fully_exact pong_socket
           (Socket [[x5b; x22; x4f];
                    [x4b; x22; x2c; x20; x22; x50; x4f; x4e; x47; x22; x5d;
                     x00]] [])
           [x00; x00; x00; x0e] 4).
  reflexivity.
Defined.

Lemma read_fully_eof_witness :
  no_empty_packet [[x00; x00]; [x00]] = true /\
  (List.length (List.concat [[x00; x00]; [x00]]) < 4)%nat /\
  read_fully (Socket [[x00; x00]; [x00]] [x41]) 4
  = Some (None, Socket [] [x41]).
Proof.
  split; [reflexivity |]. split; [simpl; lia |].
  apply (read_fully_eof (Socket [[x00; x00]; [x00]] [x41]) 4);
    [reflexivity | simpl; lia].
Defined.

Lemma request_answered_witness :
  framable ping_payload = true /\
  no_empty_packet (incoming ping_socket) = true /\
  List.concat (incoming ping_socket) = frame ping_payload ++ [x00] /\
  handle_payload ascii_upper sample_loads ping_payload [] = (Ok OK_PONG, []) /\
  pack_message ascii_dumps OK_PONG = Ok (frame pong_payload) /\
  exists sock' : socket,
    handle_iteration ascii_upper sample_loads ascii_dumps ping_socket []
    = Continue sock' [] /\
    outgoing sock' = outgoing ping_socket ++ frame pong_payload /\
    List.concat (incoming sock') = [x00].
Proof.
  split; [reflexivity |]. split; [reflexivity |]. split; [reflexivity |].
  split; [reflexivity |]. split; [reflexivity |].
  apply (request_answered ascii_upper sample_loads ascii_dumps ping_socket
           [] [] ping_payload [x00] (frame pong_payload) OK_PONG);
    reflexivity.
Defined.

Lemma request_raises_witness :
  framable five_payload = true /\
  no_empty_packet (incoming five_socket) = true /\
  List.concat (incoming five_socket) = frame five_payload ++ [] /\
  handle_payload ascii_upper sample_loads five_payload [(JStr "k", JStr "v")]
  = (Raise AttributeError, [(JStr "k", JStr "v")]) /\
  exists sock' : socket,
    handle_iteration ascii_upper sample_loads ascii_dumps five_socket
      [(JStr "k", JStr "v")]
    = Crash AttributeError sock' [(JStr "k", JStr "v")] /\
    outgoing sock' = outgoing five_socket /\
    (forall fuel : nat,
       handle_client ascii_upper sample_loads ascii_dumps (S fuel)
         five_socket [(JStr "k", JStr "v")]
       = Some (Closed (Some AttributeError) sock' [(JStr "k", JStr "v")])).
Proof.
  split; [reflexivity |]. split; [reflexivity |]. split; [reflexivity |].
  split; [reflexivity |].
  apply (request_raises ascii_upper sample_loads ascii_dumps five_socket
           [(JStr "k", JStr "v")] [(JStr "k", JStr "v")] five_payload []
           AttributeError); reflexivity.
Defined.

Lemma eof_in_header_witness :
  no_empty_packet [[x00; x00]] = true /\
  (List.length (List.concat [[x00; x00]]) < 4)%nat /\
  handle_iteration ascii_upper sample_loads ascii_dumps
    (Socket [[x00; x00]] [x41]) [(JStr "k", JStr "v")]
  = Break (Socket [] [x41]) [(JStr "k", JStr "v")] /\
  handle_client ascii_upper sample_loads ascii_dumps 1
    (Socket [[x00; x00]] [x41]) [(JStr "k", JStr "v")]
  = Some (Closed None (Socket [] [x41]) [(JStr "k", JStr "v")]).
Proof.
  split; [reflexivity |]. split; [simpl; lia |].
  apply (eof_in_header ascii_upper sample_loads ascii_dumps
           (Socket [[x00; x00]] [x41]) [(JStr "k", JStr "v")] 0);
    [reflexivity | simpl; lia].
Defined.

Lemma eof_in_payload_witness :
  0 <= 14 < 2 ^ 32 /\
  (List.length [x5b; x22] < Z.to_nat 14)%nat /\
  no_empty_packet [[x00; x00; x00; x0e; x5b]; [x22]] = true /\
  List.concat [[x00; x00; x00; x0e; x5b]; [x22]]
  = big_endian_4 14 ++ [x5b; x22] /\
  handle_iteration ascii_upper sample_loads ascii_dumps
    (Socket [[x00; x00; x00; x0e; x5b]; [x22]] []) []
  = Break (Socket [] []) [] /\
  handle_client ascii_upper sample_loads ascii_dumps 1
    (Socket [[x00; x00; x00; x0e; x5b]; [x22]] []) []
  = Some (Closed None (Socket [] []) []).
Proof.
  split; [lia |]. split; [simpl; lia |]. split; [reflexivity |].
  split; [reflexivity |].
  apply (eof_in_payload ascii_upper sample_loads ascii_dumps
           (Socket [[x00; x00; x00; x0e; x5b]; [x22]] []) [] 14
           [x5b; x22] 0);
    [lia | simpl; lia | reflexivity | reflexivity].
Defined.

Lemma session_replies_witness :
  forallb framable [set_payload; get_payload] = true /\
  no_empty_packet (incoming set_get_socket) = true /\
  List.concat (incoming set_get_socket)
  = List.concat (map frame [set_payload; get_payload]) /\
  replies ascii_upper sample_loads ascii_dumps [set_payload; get_payload] []
  = Some (frame (ascii_dumps OK_) ++ frame (ascii_dumps (OK_value (JStr "v"))),
          [(JStr "k", JStr "v")]) /\
  handle_client ascii_upper sample_loads ascii_dumps 3 set_get_socket []
  = Some (Closed None
            (Socket [] (outgoing set_get_socket
                        ++ frame (ascii_dumps OK_)
                        ++ frame (ascii_dumps (OK_value (JStr "v")))))
            [(JStr "k", JStr "v")]).
Proof.
  split; [reflexivity |]. split; [reflexivity |]. split; [reflexivity |].
  split; [reflexivity |].
  apply (session_replies ascii_upper sample_loads ascii_dumps
           [set_payload; get_payload] set_get_socket []
           [(JStr "k", JStr "v")]); reflexivity.
Defined.

Lemma send_request_returns_witness :
  _socket (sample_client pong_reply_socket) = Some pong_reply_socket /\
  Z.of_nat (List.length (ascii_dumps (JList [JStr "PING"]))) < 2 ^ 32 /\
  Z.of_nat (List.length pong_payload) < 2 ^ 32 /\
  no_empty_packet (incoming pong_reply_socket) = true /\
  List.concat (incoming pong_reply_socket) = frame pong_payload ++ [] /\
  exists sock' : socket,
    ping sample_loads ascii_dumps (sample_client pong_reply_socket)
    = Some (Returns OK_PONG,
            with_socket (sample_client pong_reply_socket) (Some sock')) /\
    outgoing sock' = outgoing pong_reply_socket ++ frame ping_payload /\
    List.concat (incoming sock') = [].
Proof.
  split; [reflexivity |]. split; [reflexivity |]. split; [reflexivity |].
  split; [reflexivity |]. split; [reflexivity |].
  apply (send_request_returns sample_loads ascii_dumps
           (sample_client pong_reply_socket) pong_reply_socket
           (JList [JStr "PING"]) pong_payload []); reflexivity.
Defined.

Lemma send_request_broken_witness :
  _socket (sample_client (Socket [[x00]] [])) = Some (Socket [[x00]] []) /\
  Z.of_nat (List.length (ascii_dumps (JList [JStr "PING"]))) < 2 ^ 32 /\
  no_empty_packet [[x00]] = true /\
  (List.length (List.concat [[x00]]) < 4)%nat /\
  ping sample_loads ascii_dumps (sample_client (Socket [[x00]] []))
  = Some (Raises (ConnectionError "Socket connection broken"),
          sample_client (Socket [] (frame ping_payload))).
Proof.
  split; [reflexivity |]. split; [reflexivity |]. split; [reflexivity |].
  split; [simpl; lia |].
  apply (send_request_broken sample_loads ascii_dumps
           (sample_client (Socket [[x00]] [])) (Socket [[x00]] [])
           (JList [JStr "PING"]));
    [reflexivity | reflexivity | reflexivity | simpl; lia].
Defined.

Lemma request_round_trip_witness :
  sample_loads (ascii_dumps (JList [JStr "GET"; JStr "k"]))
  = Some (JList [JStr "GET"; JStr "k"]) /\
  sample_loads (ascii_dumps (OK_value (JStr "v")))
  = Some (OK_value (JStr "v")) /\
  framable (ascii_dumps (JList [JStr "GET"; JStr "k"])) = true /\
  Z.of_nat (List.length (ascii_dumps (OK_value (JStr "v")))) < 2 ^ 32 /\
  process ascii_upper (JList [JStr "GET"; JStr "k"]) [(JStr "k", JStr "v")]
  = (Ok (OK_value (JStr "v")), [(JStr "k", JStr "v")]) /\
  exists client_sock' server_sock' : socket,
    handle_iteration ascii_upper sample_loads ascii_dumps
      (Socket (in_two_packets (frame get_payload)) [])
      [(JStr "k", JStr "v")]
    = Continue server_sock' [(JStr "k", JStr "v")] /\
    outgoing server_sock' = [] ++ frame (ascii_dumps (OK_value (JStr "v"))) /\
    get sample_loads ascii_dumps
      (sample_client
         (Socket (in_two_packets
                    (frame (ascii_dumps (OK_value (JStr "v"))))) []))
      (JStr "k")
    = Some (Returns (OK_value (JStr "v")),
            with_socket
              (sample_client
                 (Socket (in_two_packets
                            (frame (ascii_dumps (OK_value (JStr "v"))))) []))
              (Some client_sock')) /\
    outgoing client_sock' = [] ++ frame get_payload.
Proof.
  split; [reflexivity |]. split; [reflexivity |]. split; [reflexivity |].
  split; [reflexivity |]. split; [reflexivity |].
  apply (request_round_trip ascii_upper sample_loads ascii_dumps
           (sample_client
              (Socket (in_two_packets
                         (frame (ascii_dumps (OK_value (JStr "v"))))) []))
           (Socket (in_two_packets
                      (frame (ascii_dumps (OK_value (JStr "v"))))) [])
           (Socket (in_two_packets (frame get_payload)) [])
           (JList [JStr "GET"; JStr "k"]) (OK_value (JStr "v"))
           [(JStr "k", JStr "v")] [(JStr "k", JStr "v")]);
    reflexivity.
Defined.

Lemma process_wf_witness :
  dict_wf [(JInt 1, JStr "a"); (JStr "k", JStr "v")] = true /\
  dict_wf (snd (process ascii_upper
                  (JList [JStr "set"; JBool true; JStr "b"])
                  [(JInt 1, JStr "a"); (JStr "k", JStr "v")])) = true.
Proof.
  split; [reflexivity |].
  apply (process_wf ascii_upper); reflexivity.
Defined.


